(** * The fleet reconciler of pkg/controller/controller.go

    A shallow embedding of [Controller.Run], [getKubeClient], [probeHTTP],
    [startCloudControllerManager] and [cleanup], followed by the properties
    of the reconciliation loop.

    Modelling conventions.
    - Durations and instants are [Z] nanoseconds, as Go's [time.Duration].
    - The outside world is a logical clock plus the trace of every call the
      controller makes to a collaborator (newest event first).  A collaborator
      answers as a function of the whole world, so its answers may change from
      one call to the next in any way.
    - Calls to collaborators take no time; only [time.Sleep] and the waits of
      the polling helper advance the clock.
    - The process-level context fires at a fixed instant ([cancel_at]) or
      never; [ctx.Done()] is ready once the clock has reached that instant.
    - The HTTP client of the prober (5-second timeout, certificate checks
      off) is part of the transport collaborator: [http_Get] and the body it
      hands back, whose transfer may break part-way. *)

From stdpp Require Import gmap strings list fin_maps.

Local Open Scope Z_scope.

(** ** Data model *)

Inductive error :=
| ErrCanceled                      (* ctx.Err() of a canceled context *)
| ErrWaitTimeout                   (* wait.ErrWaitTimeout *)
| ErrNoClientset                   (* "can not find a working kubernetes clientset" *)
| ErrExternal (msg : string).      (* an error handed back by a collaborator *)

(** A Go [(T, error)] result whose value is only used when the error is nil. *)
Inductive result (A : Type) :=
| Ok (a : A)
| Err (e : error).
Arguments Ok {A} a.
Arguments Err {A} e.

Definition is_ok {A} (r : result A) : bool :=
  match r with Ok _ => true | Err _ => false end.

Record restConfig := RestConfig { Host : string }.

Inductive kubeClient := KubeClient (name : string).

Inductive cloudProvider := Cloud (clusterName : string).

Inductive informerFactory := SharedInformerFactory (client : kubeClient) (resync : Z).

Inductive serviceCtrl := ServiceController (tag : string).

Inductive nodeCtrl := CloudNodeController (tag : string).

(** [ccm]: the handle of one running instance.  [cancelFn] is the identity of
    the child context made by [context.WithCancel]. *)
Record ccm := Ccm {
  factory           : informerFactory;
  serviceController : serviceCtrl;
  nodeController    : nodeCtrl;
  cancelFn          : nat;
}.

(** A response body as the client receives it: the bytes the server sends
    and, when the transfer breaks, after how many of them and with which
    error. *)
Record body := { content : list Z; broken : option (nat * error) }.

Record response := Response { StatusCode : Z; Body : body }.

Inductive severity := Info | Error | V (level : nat).

Inductive event :=
| EvList
| EvKubeConfig (cluster : string) (internal : bool)
| EvGet (address : string)
| EvReadAll (n : nat)
| EvBodyClose (unread : nat)
| EvSleep (d : Z)
| EvHealthz (client : kubeClient) (at_clock : Z)
| EvNewServiceController (cluster : string)
| EvWithCancel (id : nat)
| EvGoServiceRun (cluster : string) (id : nat)
| EvNewNodeController (cluster : string)
| EvGoNodeRun (cluster : string) (id : nat)
| EvInformersStart (cluster : string) (id : nat)
| EvCancel (id : nat)
| EvListByLabel (label : string)
| EvDelete (id : string)
| EvLog (s : severity) (format : string).

Record world := World {
  clock    : Z;
  trace    : list event;
  next_ctx : nat;
}.

(** The collaborators: discovery provider, HTTP transport, client-go,
    the delegated controllers' constructors and the container runtime. *)
Record Env := {
  cancel_at                : option Z;
  kind_List                : world -> list string * option error;
  kind_KubeConfig          : string -> bool -> world -> result string;
  RESTConfigFromKubeConfig : string -> result restConfig;
  http_Get                 : string -> world -> result response;
  NewForConfig             : restConfig -> result kubeClient;
  healthz                  : kubeClient -> world -> Z;
  servicecontroller_New    : cloudProvider -> kubeClient -> string -> world -> result serviceCtrl;
  nodecontroller_New       : kubeClient -> cloudProvider -> world -> result nodeCtrl;
  NodeCCMLabelKey          : string;
  container_ListByLabel    : string -> world -> list string * option error;
  container_Delete         : string -> world -> option error;
}.

Record Controller := { clusters : gmap string ccm }.

Definition New : Controller := {| clusters := ∅ |}.

(** ** The state monad over the world *)

Definition M (A : Type) : Type := world -> A * world.

Definition ret {A} (a : A) : M A := fun w => (a, w).

Definition bind {A B} (m : M A) (k : A -> M B) : M B :=
  fun w => let '(a, w') := m w in k a w'.

Notation "'let*' x := m 'in' k" := (bind m (fun x => k))
  (at level 10, x name, m at level 100, k at level 200).
Notation "m ;; k" := (bind m (fun _ => k))
  (at level 100, k at level 200, right associativity).

Definition emit (e : event) : M unit :=
  fun w => (tt, {| clock := clock w; trace := e :: trace w; next_ctx := next_ctx w |}).

Definition klog (s : severity) (format : string) : M unit := emit (EvLog s format).

Definition Second : Z := 1000000000.
Definition StatusOK : Z := 200.

(** [time.Sleep d]: pauses for [d]; a negative or zero [d] returns at once.
    It has no cancellation argument. *)
Definition time_Sleep (d : Z) : M unit :=
  fun w => (tt, {| clock := clock w + Z.max 0 d;
                   trace := EvSleep d :: trace w;
                   next_ctx := next_ctx w |}).

Section Program.

Variable E : Env.

Definition fired (t : Z) : bool :=
  match cancel_at E with
  | Some c => c <=? t
  | None => false
  end.

(** [select { case <-ctx.Done(): ...; default: }] *)
Definition ctx_Done : M bool := fun w => (fired (clock w), w).

(** [context.WithCancel]: a fresh child context. *)
Definition context_WithCancel : M nat :=
  fun w => (next_ctx w,
            {| clock := clock w;
               trace := EvWithCancel (next_ctx w) :: trace w;
               next_ctx := S (next_ctx w) |}).

Definition call {A} (e : event) (f : world -> A) : M A :=
  fun w => (f w, snd (emit e w)).

(** ** probeHTTP *)

(** [io.ReadAll]: reads to the end of the body or to the first error; it
    hands back what it read and the error, and leaves the rest unread. *)
Definition io_ReadAll (b : body) : (list Z * option error) * body :=
  match broken b with
  | None => ((content b, None), {| content := []; broken := None |})
  | Some (n, e) =>
      ((take n (content b), Some e),
       {| content := drop n (content b); broken := Some (0%nat, e) |})
  end.

Definition probeHTTP (address : string) : M bool :=
  klog Info "probe HTTP address %s" ;;
  let* r := call (EvGet address) (http_Get E address) in
  match r with
  | Err _ =>
      klog Info "Failed to connect to HTTP address %s: %v" ;;
      ret false
  | Ok resp =>
      let '((data, _), rest) := io_ReadAll (Body resp) in   (* nolint:errcheck *)
      emit (EvReadAll (length data)) ;;
      emit (EvBodyClose (length (content rest))) ;;   (* deferred resp.Body.Close() *)
      ret true
  end.

(** ** getKubeClient *)

Inductive probing := Reachable | Unreachable | Canceled.

(** [for i := 0; i < 5; i++], with [n] iterations left. *)
Fixpoint probe_loop (n : nat) (i : Z) (host : string) : M probing :=
  match n with
  | O => ret Unreachable
  | S n' =>
      let* done := ctx_Done in
      if done then ret Canceled
      else
        let* ok := probeHTTP host in
        if ok then ret Reachable
        else time_Sleep (Second * i) ;; probe_loop n' (i + 1) host
  end.

Inductive attempt :=
| NextVariant
| Return (r : result kubeClient).

(** One iteration of [for _, internal := range []bool{false, true}]. *)
Definition try_variant (cluster : string) (internal : bool) : M attempt :=
  let* r := call (EvKubeConfig cluster internal) (kind_KubeConfig E cluster internal) in
  match r with
  | Err _ =>
      klog Error "Failed to get kubeconfig for cluster %s: %v" ;;
      ret NextVariant
  | Ok kconfig =>
      match RESTConfigFromKubeConfig E kconfig with
      | Err _ =>
          klog Error "Failed to convert kubeconfig for cluster %s: %v" ;;
          ret NextVariant
      | Ok config =>
          let* p := probe_loop 5 0 (Host config) in
          match p with
          | Canceled => ret (Return (Err ErrCanceled))
          | Unreachable =>
              klog Error "Failed to connect to apiserver %s: %v" ;;
              ret NextVariant
          | Reachable =>
              match NewForConfig E config with
              | Err _ =>
                  klog Error "Failed to create kubeClient for cluster %s: %v" ;;
                  ret NextVariant
              | Ok kubeClient => ret (Return (Ok kubeClient))
              end
          end
      end
  end.

Fixpoint getKubeClient_from (variants : list bool) (cluster : string)
  : M (result kubeClient) :=
  match variants with
  | [] => ret (Err ErrNoClientset)
  | internal :: rest =>
      let* a := try_variant cluster internal in
      match a with
      | Return r => ret r
      | NextVariant => getKubeClient_from rest cluster
      end
  end.

Definition getKubeClient (cluster : string) : M (result kubeClient) :=
  getKubeClient_from [false; true] cluster.

(** ** The readiness poll *)

Definition advance (t : Z) : M unit :=
  fun w => (tt, {| clock := Z.max (clock w) t; trace := trace w; next_ctx := next_ctx w |}).

Definition condition := M (bool * option error).

(** Modelled from the spec: [wait.PollImmediateWithContext] belongs to
    k8s.io/apimachinery and is not under src/.  The condition runs once at
    once, then once per [interval] tick; the call gives up with
    [ErrWaitTimeout] when [timeout] has elapsed, and also when the context
    fires, which it notices while it waits.  [poll_ticks] is the ticking
    part, with [n] ticks left. *)
Fixpoint poll_ticks (n : nat) (interval deadline : Z) (cond : condition)
  : M (option error) :=
  match n with
  | O => ret (Some ErrWaitTimeout)
  | S n' =>
      fun w =>
        let tick := clock w + interval in
        (if fired (Z.min tick deadline) then
           advance (default 0 (cancel_at E)) ;; ret (Some ErrWaitTimeout)
         else if deadline <=? tick then
           advance deadline ;; ret (Some ErrWaitTimeout)
         else
           advance tick ;;
           let* r := cond in
           match r with
           | (_, Some e) => ret (Some e)
           | (true, None) => ret None
           | (false, None) => poll_ticks n' interval deadline cond
           end) w
  end.

(** Modelled from the spec: the entry point of the poll, see [poll_ticks]. *)
Definition PollImmediateWithContext (interval timeout : Z) (cond : condition)
  : M (option error) :=
  fun w =>
    let deadline := clock w + timeout in
    (let* r := cond in
     match r with
     | (_, Some e) => ret (Some e)
     | (true, None) => ret None
     | (false, None) =>
         poll_ticks (S (Z.to_nat (timeout / Z.max 1 interval))) interval deadline cond
     end) w.

(** ** startCloudControllerManager *)

Definition healthy (kubeClient : kubeClient) : condition :=
  let* healthStatus :=
    (fun w => call (EvHealthz kubeClient (clock w)) (healthz E kubeClient) w) in
  if decide (healthStatus ≠ StatusOK) then ret (false, None)
  else ret (true, None).

Definition cancel (id : nat) : M unit := emit (EvCancel id).

Definition startCloudControllerManager (clusterName : string)
    (kubeClient : kubeClient) (cloud : cloudProvider) : M (result ccm) :=
  let* err := PollImmediateWithContext (1 * Second) (30 * Second) (healthy kubeClient) in
  match err with
  | Some e =>
      klog Error "Failed waiting for apiserver to be ready: %v" ;;
      ret (Err e)
  | None =>
      let sharedInformers := SharedInformerFactory kubeClient (60 * Second) in
      let* r := call (EvNewServiceController clusterName)
                     (servicecontroller_New E cloud kubeClient clusterName) in
      match r with
      | Err e =>
          klog Error "Failed to start service controller: %v" ;;
          ret (Err e)
      | Ok serviceController =>
          let* ctx := context_WithCancel in
          emit (EvGoServiceRun clusterName ctx) ;;
          let* r := call (EvNewNodeController clusterName)
                         (nodecontroller_New E kubeClient cloud) in
          match r with
          | Err e =>
              klog Error "Failed to start node controller: %v" ;;
              cancel ctx ;;
              ret (Err e)
          | Ok nodeController =>
              emit (EvGoNodeRun clusterName ctx) ;;
              emit (EvInformersStart clusterName ctx) ;;
              ret (Ok {| factory := sharedInformers;
                         serviceController := serviceController;
                         nodeController := nodeController;
                         cancelFn := ctx |})
          end
      end
  end.

(** ** cleanup *)

Fixpoint delete_all (containers : list string) : M unit :=
  match containers with
  | [] => ret tt
  | id :: rest =>
      let* err := call (EvDelete id) (container_Delete E id) in
      match err with
      | Some _ => klog Error "can't delete container %s: %v" ;; delete_all rest
      | None => delete_all rest
      end
  end.

Definition cleanup : M unit :=
  let* r := call (EvListByLabel (NodeCCMLabelKey E))
                 (container_ListByLabel E (NodeCCMLabelKey E)) in
  match r with
  | (_, Some _) => klog Error "can't list containers: %v" ;; ret tt
  | (containers, None) => delete_all containers
  end.

(** ** Controller.Run *)

Inductive flow := Continue | Exit.

(** The body of [for _, cluster := range clusters], after the context check. *)
Definition add_cluster (cluster : string) (c : Controller) : M Controller :=
  klog (V 3) "processing cluster %s" ;;
  match clusters c !! cluster with
  | Some _ =>
      klog (V 3) "cluster %s already exist" ;;
      ret c
  | None =>
      let* r := getKubeClient cluster in
      match r with
      | Err _ =>
          klog Error "Failed to create kubeClient for cluster %s: %v" ;;
          ret c
      | Ok kubeClient =>
          klog (V 2) "Creating new cloud provider for cluster %s" ;;
          let cloud := Cloud cluster in
          let* r := startCloudControllerManager cluster kubeClient cloud in
          match r with
          | Err _ =>
              klog Error "Failed to start cloud controller for cluster %s: %v" ;;
              ret c
          | Ok ccm =>
              klog Info "Starting cloud controller for cluster %s" ;;
              ret {| clusters := <[cluster := ccm]> (clusters c) |}
          end
      end
  end.

Fixpoint add_new (listed : list string) (c : Controller) : M (flow * Controller) :=
  match listed with
  | [] => ret (Continue, c)
  | cluster :: rest =>
      let* done := ctx_Done in
      if done then ret (Exit, c)
      else
        let* c' := add_cluster cluster c in
        add_new rest c'
  end.

(** [for cluster, ccm := range c.clusters], over the entries in the order the
    runtime hands them out. *)
Fixpoint remove_from (clusterSet : gset string) (entries : list (string * ccm))
    (c : Controller) : M Controller :=
  match entries with
  | [] => ret c
  | (cluster, ccm) :: rest =>
      if decide (cluster ∈ clusterSet) then remove_from clusterSet rest c
      else
        klog Info "Stopping service controller for cluster %s" ;;
        cancel (cancelFn ccm) ;;
        remove_from clusterSet rest {| clusters := delete cluster (clusters c) |}
  end.

Definition remove_expired (listed : list string) (c : Controller) : M Controller :=
  let clusterSet : gset string := list_to_set listed in
  remove_from clusterSet (map_to_list (clusters c)) c.

(** One turn of the outer [for]. *)
Definition cycle (c : Controller) : M (flow * Controller) :=
  let* done := ctx_Done in
  if done then ret (Exit, c)
  else
    let* r := call EvList (kind_List E) in
    let '(listed, err) := r in
    (match err with
     | Some _ => klog Info "error listing clusters, retrying ...: %v"
     | None => ret tt
     end) ;;
    let* r := add_new listed c in
    match r with
    | (Exit, c') => ret (Exit, c')
    | (Continue, c') =>
        let* c'' := remove_expired listed c' in
        time_Sleep (30 * Second) ;;
        ret (Continue, c'')
    end.

(** The outer loop, cut after [fuel] turns: [None] means still running. *)
Fixpoint loop (fuel : nat) (c : Controller) (w : world) : option (Controller * world) :=
  match fuel with
  | O => None
  | S fuel' =>
      match cycle c w with
      | ((Exit, c'), w') => Some (c', w')
      | ((Continue, c'), w') => loop fuel' c' w'
      end
  end.

(** [Run]: the loop, then the deferred [cleanup]. *)
Definition Run (fuel : nat) (c : Controller) (w : world) : option (Controller * world) :=
  match loop fuel c w with
  | Some (c', w') => Some (c', snd (cleanup w'))
  | None => None
  end.

End Program.

Arguments fired : simpl never.

(** ** Scripted collaborators for concrete runs *)

Module Scenario.

Definition host_of (cluster : string) (internal : bool) : string :=
  if internal then cluster +:+ "/internal" else cluster +:+ "/external".

Record script := {
  s_cancel     : option Z;
  s_list       : world -> list string * option error;
  s_kubeconfig : string -> bool -> bool;       (* is connection material available *)
  s_get        : string -> world -> result response;
  s_client     : string -> bool;               (* does the client build for this host *)
  s_healthz    : world -> Z;
  s_service    : string -> bool;               (* does the service controller build *)
  s_node       : string -> bool;               (* does the node controller build *)
  s_tagged     : list string * option error;
  s_delete     : string -> option error;
}.

Definition env (s : script) : Env := {|
  cancel_at := s_cancel s;
  kind_List := s_list s;
  kind_KubeConfig := fun cluster internal _ =>
    if s_kubeconfig s cluster internal then Ok (host_of cluster internal)
    else Err (ErrExternal "no kubeconfig");
  RESTConfigFromKubeConfig := fun kconfig =>
    if decide (kconfig = "") then Err (ErrExternal "empty kubeconfig")
    else Ok {| Host := kconfig |};
  http_Get := s_get s;
  NewForConfig := fun config =>
    if s_client s (Host config) then Ok (KubeClient (Host config))
    else Err (ErrExternal "bad config");
  healthz := fun _ w => s_healthz s w;
  servicecontroller_New := fun _ _ cluster _ =>
    if s_service s cluster then Ok (ServiceController cluster)
    else Err (ErrExternal "service controller");
  nodecontroller_New := fun _ cloud _ =>
    let 'Cloud cluster := cloud in
    if s_node s cluster then Ok (CloudNodeController cluster)
    else Err (ErrExternal "node controller");
  NodeCCMLabelKey := "io.x-k8s.cloud-provider-kind.cluster";
  container_ListByLabel := fun _ _ => s_tagged s;
  container_Delete := fun id _ => s_delete s id;
|}.

Definition w0 : world := {| clock := 0; trace := []; next_ctx := 0 |}.

(** Everything works: every host answers 200, every constructor succeeds. *)
Definition fine (cancel : option Z) (listed : list string) : script := {|
  s_cancel := cancel;
  s_list := fun _ => (listed, None);
  s_kubeconfig := fun _ _ => true;
  s_get := fun _ _ =>
    Ok {| StatusCode := 200; Body := {| content := [1; 2; 3]; broken := None |} |};
  s_client := fun _ => true;
  s_healthz := fun _ => 200;
  s_service := fun _ => true;
  s_node := fun _ => true;
  s_tagged := ([], None);
  s_delete := fun _ => None;
|}.

(** Hosts in [up] answer (with a 503); every other GET is refused. *)
Definition reach (up : list string) (address : string) (_ : world) : result response :=
  if decide (address ∈ up)
  then Ok {| StatusCode := 503; Body := {| content := [7; 7]; broken := None |} |}
  else Err (ErrExternal "connection refused").

Definition with_network (s : script) (up : list string) (builds : string -> bool) : script := {|
  s_cancel := s_cancel s;
  s_list := s_list s;
  s_kubeconfig := s_kubeconfig s;
  s_get := reach up;
  s_client := builds;
  s_healthz := s_healthz s;
  s_service := s_service s;
  s_node := s_node s;
  s_tagged := s_tagged s;
  s_delete := s_delete s;
|}.

(** Both endpoints of every cluster answer, but no client can be built from
    the external configuration. *)
Definition external_client_broken : script :=
  with_network (fine None []) ["A/external"; "A/internal"]
    (fun host => bool_decide (host = "A/internal")).

(** No endpoint answers. *)
Definition nothing_answers (cancel : option Z) : script :=
  with_network (fine cancel []) [] (fun _ => true).

(** The listing answers [first] during the first 30 seconds and [second]
    afterwards; only the hosts in [up] answer. *)
Definition turnover (cancel : option Z) (first second : list string * option error)
    (up : list string) : script := {|
  s_cancel := cancel;
  s_list := fun w => if clock w <? 30 * Second then first else second;
  s_kubeconfig := fun _ _ => true;
  s_get := reach up;
  s_client := fun _ => true;
  s_healthz := fun _ => 200;
  s_service := fun _ => true;
  s_node := fun _ => true;
  s_tagged := (["leftover-1"; "leftover-2"], None);
  s_delete := fun _ => None;
|}.

(** A is listed first, then B and C; B does not answer and the signal fires
    half a second into the second turn. *)
Definition interrupted : script :=
  turnover (Some (30 * Second + 500000000)) (["A"], None) (["B"; "C"], None) ["A/external"].

(** A is listed first; then the listing fails. *)
Definition outage : script :=
  turnover None (["A"], None) ([], Some (ErrExternal "docker unavailable")) ["A/external"].

(** A and B are listed first, then B and C. *)
Definition replacement : script :=
  turnover None (["A"; "B"], None) (["B"; "C"], None)
    ["A/external"; "B/internal"; "C/external"].

(** D is listed and answers, but its control plane keeps saying 503. *)
Definition never_ready (cancel : option Z) : script := {|
  s_cancel := cancel;
  s_list := fun _ => (["D"], None);
  s_kubeconfig := fun _ _ => true;
  s_get := reach ["D/external"];
  s_client := fun _ => true;
  s_healthz := fun _ => 503;
  s_service := fun _ => true;
  s_node := fun _ => true;
  s_tagged := ([], None);
  s_delete := fun _ => None;
|}.

(** D is listed, answers and is ready, but its node controller cannot be
    built. *)
Definition node_controller_fails : script := {|
  s_cancel := None;
  s_list := fun _ => (["D"], None);
  s_kubeconfig := fun _ _ => true;
  s_get := reach ["D/external"];
  s_client := fun _ => true;
  s_healthz := fun _ => 200;
  s_service := fun _ => true;
  s_node := fun _ => false;
  s_tagged := ([], None);
  s_delete := fun _ => None;
|}.

(** As above, but it is the service controller that cannot be built. *)
Definition service_controller_fails : script := {|
  s_cancel := None;
  s_list := fun _ => (["D"], None);
  s_kubeconfig := fun _ _ => true;
  s_get := reach ["D/external"];
  s_client := fun _ => true;
  s_healthz := fun _ => 200;
  s_service := fun _ => false;
  s_node := fun _ => true;
  s_tagged := ([], None);
  s_delete := fun _ => None;
|}.

(** A is listed but nothing answers; the signal fires at 16.5 s, during the
    last wait of the last variant. *)
Definition late_signal : script :=
  with_network (fine (Some (16 * Second + 500000000)) ["A"]) [] (fun _ => true).

(** Every host answers 200, but the transfer of the 3-byte body breaks
    after the first byte. *)
Definition body_cut : script := {|
  s_cancel := None;
  s_list := fun _ => ([], None);
  s_kubeconfig := fun _ _ => true;
  s_get := fun _ _ =>
    Ok {| StatusCode := 200;
          Body := {| content := [1; 2; 3];
                     broken := Some (1%nat, ErrExternal "timeout while reading body") |} |};
  s_client := fun _ => true;
  s_healthz := fun _ => 200;
  s_service := fun _ => true;
  s_node := fun _ => true;
  s_tagged := ([], None);
  s_delete := fun _ => None;
|}.

(** The state after the first turn of the loop. *)
Definition after_first (s : script) : Controller * world :=
  (snd (fst (cycle (env s) New w0)), snd (cycle (env s) New w0)).

Definition handle (cluster : string) (internal : bool) (id : nat) : ccm := {|
  factory := SharedInformerFactory (KubeClient (host_of cluster internal)) (60 * Second);
  serviceController := ServiceController cluster;
  nodeController := CloudNodeController cluster;
  cancelFn := id;
|}.

End Scenario.

(** ** Views of the trace *)

Definition started (tr : list event) : list (string * nat) :=
  omap (fun e => match e with EvInformersStart k id => Some (k, id) | _ => None end) tr.

Definition canceled (tr : list event) : list nat :=
  omap (fun e => match e with EvCancel id => Some id | _ => None end) tr.

Definition spawned (tr : list event) : list nat :=
  omap (fun e => match e with
                 | EvGoServiceRun _ id | EvGoNodeRun _ id => Some id
                 | _ => None
                 end) tr.

Definition bootstrapped (tr : list event) : list string :=
  omap (fun e => match e with EvKubeConfig k _ => Some k | _ => None end) tr.

Definition variants_tried (tr : list event) : list bool :=
  omap (fun e => match e with EvKubeConfig _ b => Some b | _ => None end) tr.

Definition launched (tr : list event) : list string :=
  omap (fun e => match e with EvNewServiceController k => Some k | _ => None end) tr.

Definition probes (tr : list event) : list string :=
  omap (fun e => match e with EvGet a => Some a | _ => None end) tr.

Definition sleeps (tr : list event) : list Z :=
  omap (fun e => match e with EvSleep d => Some d | _ => None end) tr.

Definition health_checks (tr : list event) : list Z :=
  omap (fun e => match e with EvHealthz _ t => Some t | _ => None end) tr.

Definition sweeps (tr : list event) : list string :=
  omap (fun e => match e with EvListByLabel l => Some l | _ => None end) tr.

Definition deleted (tr : list event) : list string :=
  omap (fun e => match e with EvDelete id => Some id | _ => None end) tr.

(** Event classes: what each part of the program may add to the trace. *)

Definition probe_event (e : event) : Prop :=
  match e with
  | EvLog _ _ | EvGet _ | EvReadAll _ | EvBodyClose _ => True
  | _ => False
  end.

Definition probing_event (e : event) : Prop :=
  match e with
  | EvLog _ _ | EvGet _ | EvReadAll _ | EvBodyClose _ | EvSleep _ => True
  | _ => False
  end.

Definition bootstrap_event (cluster : string) (e : event) : Prop :=
  match e with
  | EvLog _ _ | EvGet _ | EvReadAll _ | EvBodyClose _ | EvSleep _ => True
  | EvKubeConfig k _ => k = cluster
  | _ => False
  end.

Definition sweep_event (e : event) : Prop :=
  match e with EvListByLabel _ | EvDelete _ | EvLog _ _ => True | _ => False end.

Definition loop_event (e : event) : Prop :=
  match e with EvListByLabel _ | EvDelete _ => False | _ => True end.

(** What one iteration for [cluster] of the additions loop may add. *)
Definition cluster_event (cluster : string) (e : event) : Prop :=
  match e with
  | EvKubeConfig k _ | EvNewServiceController k | EvNewNodeController k
  | EvGoServiceRun k _ | EvGoNodeRun k _ | EvInformersStart k _ => k = cluster
  | EvList | EvListByLabel _ | EvDelete _ => False
  | _ => True
  end.

Definition log_event (e : event) : Prop :=
  match e with EvLog _ _ => True | _ => False end.

Definition removal_event (e : event) : Prop :=
  match e with EvLog _ _ | EvCancel _ => True | _ => False end.

(** What the additions loop may add when it starts from controller [c]:
    for an identifier that is already a key, log lines only. *)
Definition fresh_event (c : Controller) (e : event) : Prop :=
  exists cluster, cluster_event cluster e /\
                  (is_Some (clusters c !! cluster) -> log_event e).

(** What one turn of the outer loop may add when it starts from [c]. *)
Definition cycle_event (c : Controller) (e : event) : Prop :=
  match e with
  | EvListByLabel _ | EvDelete _ => False
  | EvKubeConfig k _ | EvNewServiceController k => clusters c !! k = None
  | _ => True
  end.

(** The trace of [w'] is the trace of [w] plus events of class [P]. *)
Definition grows (P : event -> Prop) (w w' : world) : Prop :=
  exists new, trace w' = new ++ trace w /\ Forall P new.

(** Every background task in [tr] runs under a context whose cancellation
    control is invoked in [tr] or whose launch completed in [tr]. *)
Definition accounted (tr : list event) : Prop :=
  forall id, id ∈ spawned tr -> id ∈ canceled tr \/ id ∈ (started tr).*2.

(** How often the cancellation control [id] has been invoked. *)
Definition times_canceled (id : nat) (tr : list event) : nat :=
  length (filter (fun x => x = id) (canceled tr)).

(** The lifecycle invariant of FleetState, over the map, the launches that
    completed ([st]), the cancellation controls invoked ([cn]) and the next
    unused context identity ([nx]): an identifier is a key exactly when one
    of its launches completed and the control of that launch has not been
    invoked. *)
Record lifecycle (m : gmap string ccm) (st : list (string * nat)) (cn : list nat) (nx : nat)
  : Prop := {
  lc_keys : forall k id,
    (exists h, m !! k = Some h /\ cancelFn h = id) <-> ((k, id) ∈ st /\ id ∉ cn);
  lc_started_old : forall k id, (k, id) ∈ st -> (id < nx)%nat;
  lc_canceled_old : forall id, id ∈ cn -> (id < nx)%nat;
  lc_started_once : NoDup (st.*2);
  lc_canceled_once : NoDup cn;
}.

(** The world in which [add_cluster] starts the launch of [cluster], given
    the world [w] in which the iteration began. *)
Definition launch_world (E : Env) (cluster : string) (w : world) : world :=
  snd (klog (V 2) "Creating new cloud provider for cluster %s"
         (snd (getKubeClient E cluster (snd (klog (V 3) "processing cluster %s" w))))).

Definition Inv (c : Controller) (w : world) : Prop :=
  lifecycle (clusters c) (started (trace w)) (canceled (trace w)) (next_ctx w).

(** [w'] is reached from [w] by adding events of class [P]; the clock does
    not go back and no child context is made. *)
Definition ext (P : event -> Prop) (w w' : world) : Prop :=
  (exists new, trace w' = new ++ trace w /\ Forall P new) /\
  clock w <= clock w' /\ next_ctx w' = next_ctx w.

(** The waits after [k] failed probe attempts, the first being attempt [i]:
    [time.Second * time.Duration(i)], oldest first. *)
Fixpoint backoff (i : Z) (k : nat) : list Z :=
  match k with
  | O => []
  | S k' => Second * i :: backoff (i + 1) k'
  end.

(** [m] instants, [interval] apart, from [t] on. *)
Fixpoint instants (t interval : Z) (m : nat) : list Z :=
  match m with
  | O => []
  | S m' => t :: instants (t + interval) interval m'
  end.

Definition total (ds : list Z) : Z := foldr Z.add 0 ds.

Lemma ext_intro (P : event -> Prop) w w' new :
  trace w' = new ++ trace w -> Forall P new ->
  clock w <= clock w' -> next_ctx w' = next_ctx w -> ext P w w'.
Proof. intros. split; [by exists new | done]. Qed.

Lemma ext_refl P w : ext P w w.
Proof. split; [exists []; split; [done | constructor] | split; [lia | done]]. Qed.

Lemma ext_trans P w1 w2 w3 : ext P w1 w2 -> ext P w2 w3 -> ext P w1 w3.
Proof.
  intros [(n1 & E1 & F1) [C1 N1]] [(n2 & E2 & F2) [C2 N2]].
  split; [| split; [lia | congruence]].
  exists (n2 ++ n1). split; [by rewrite E2, E1, app_assoc | by apply Forall_app].
Qed.

Lemma ext_weaken (P Q : event -> Prop) w w' :
  (forall e, P e -> Q e) -> ext P w w' -> ext Q w w'.
Proof.
  intros HPQ [(n & En & Fn) HC]. split; [| done].
  exists n. split; [done | by eapply Forall_impl].
Qed.

Lemma ext_sleep (P : event -> Prop) d w : P (EvSleep d) -> ext P w (snd (time_Sleep d w)).
Proof.
  intros He. split; [| simpl; split; [lia | done]].
  exists [EvSleep d]. split; [done | by constructor].
Qed.

(** A view that ignores the class [P] does not see the step. *)
Lemma ext_view {A} (f : event -> option A) (P : event -> Prop) w w' :
  (forall e, P e -> f e = None) -> ext P w w' -> omap f (trace w') = omap f (trace w).
Proof.
  intros Hf [(n & -> & Fn) _]. rewrite omap_app.
  replace (omap f n) with (@nil A); [done |].
  induction Fn as [| e n He _ IH]; [done |]. simpl. by rewrite (Hf e He).
Qed.

Lemma bind_eq {A B} (m : M A) (k : A -> M B) w :
  bind m k w = k (fst (m w)) (snd (m w)).
Proof. unfold bind. by destruct (m w). Qed.

Ltac step := unfold bind, ret, call, klog, cancel; simpl.

Ltac ext_by l :=
  apply ext_intro with (new := l); simpl;
  [done | by repeat constructor | lia | done].

(** ** The health prober *)

Section Prober.

Variable E : Env.

Lemma probeHTTP_ext address w : ext probe_event w (snd (probeHTTP E address w)).
Proof.
  unfold probeHTTP. step.
  destruct (http_Get E address _) as [resp | e]; simpl.
  - unfold io_ReadAll. destruct (broken (Body resp)) as [[n e] |]; simpl.
    + ext_by [EvBodyClose (length (drop n (content (Body resp))));
              EvReadAll (length (take n (content (Body resp))));
              EvGet address; EvLog Info "probe HTTP address %s"].
    + ext_by [EvBodyClose 0; EvReadAll (length (content (Body resp)));
              EvGet address; EvLog Info "probe HTTP address %s"].
  - ext_by [EvLog Info "Failed to connect to HTTP address %s: %v";
            EvGet address; EvLog Info "probe HTTP address %s"].
Qed.

Lemma probeHTTP_clock address w : clock (snd (probeHTTP E address w)) = clock w.
Proof.
  unfold probeHTTP. step.
  destruct (http_Get E address _) as [resp | e]; [| done].
  unfold io_ReadAll. by destruct (broken (Body resp)) as [[n e] |].
Qed.

Lemma probeHTTP_probes address w :
  probes (trace (snd (probeHTTP E address w))) = address :: probes (trace w).
Proof.
  unfold probeHTTP. step.
  destruct (http_Get E address _) as [resp | e]; [| done].
  unfold io_ReadAll. by destruct (broken (Body resp)) as [[n e] |].
Qed.

Lemma probeHTTP_sleeps address w :
  sleeps (trace (snd (probeHTTP E address w))) = sleeps (trace w).
Proof.
  unfold probeHTTP. step.
  destruct (http_Get E address _) as [resp | e]; [| done].
  unfold io_ReadAll. by destruct (broken (Body resp)) as [[n e] |].
Qed.

(** C6, as amended.  [probeHTTP] answers [true] exactly when the GET
    yielded a response, whatever its status code, and [false] exactly when
    the GET itself handed back an error, and then nothing is read.  On the
    success path the body is read and then closed: to its end, with nothing
    left unread, when reading it does not fail; when reading it fails after
    [n] bytes the error is dropped, the answer is still [true] and the rest
    of the body is left unread at the close. *)
Theorem probeHTTP_reachability (address : string) (w : world) :
  let asked := snd (klog Info "probe HTTP address %s" w) in
  match http_Get E address asked with
  | Ok resp =>
      fst (probeHTTP E address w) = true /\
      match broken (Body resp) with
      | None =>
          trace (snd (probeHTTP E address w)) =
            EvBodyClose 0 :: EvReadAll (length (content (Body resp)))
            :: EvGet address :: trace asked
      | Some (n, _) =>
          trace (snd (probeHTTP E address w)) =
            EvBodyClose (length (content (Body resp)) - n)
            :: EvReadAll (Nat.min n (length (content (Body resp))))
            :: EvGet address :: trace asked
      end
  | Err _ =>
      fst (probeHTTP E address w) = false /\
      trace (snd (probeHTTP E address w)) =
        EvLog Info "Failed to connect to HTTP address %s: %v" :: EvGet address :: trace asked
  end.
Proof.
  unfold probeHTTP. step.
  destruct (http_Get E address _) as [resp | e]; [| done].
  unfold io_ReadAll. destruct (broken (Body resp)) as [[n e] |]; simpl; [| done].
  split; [done |]. by rewrite length_take, length_drop.
Qed.

End Prober.

(** The GET is answered with 200, but reading the 3-byte body fails after
    one byte: the probe still says [true], and the body is closed with two
    bytes unread. *)
Lemma probe_true_with_body_undrained :
  let E := Scenario.env Scenario.body_cut in
  fst (probeHTTP E "A/external" Scenario.w0) = true /\
  trace (snd (probeHTTP E "A/external" Scenario.w0)) =
    [EvBodyClose 2; EvReadAll 1; EvGet "A/external"; EvLog Info "probe HTTP address %s"].
Proof. by vm_compute. Qed.

(** A 503 answer still counts as reachable; a refused connection does not. *)
Example probeHTTP_503 :
  fst (probeHTTP
         (Scenario.env {| Scenario.s_cancel := None;
                          Scenario.s_list := fun _ => ([], None);
                          Scenario.s_kubeconfig := fun _ _ => true;
                          Scenario.s_get := fun a _ =>
                            if decide (a = "up")
                            then Ok {| StatusCode := 503;
                                       Body := {| content := [7; 7]; broken := None |} |}
                            else Err (ErrExternal "connection refused");
                          Scenario.s_client := fun _ => true;
                          Scenario.s_healthz := fun _ => 200;
                          Scenario.s_service := fun _ => true;
                          Scenario.s_node := fun _ => true;
                          Scenario.s_tagged := ([], None);
                          Scenario.s_delete := fun _ => None |})
         "up" Scenario.w0) = true.
Proof. reflexivity. Qed.

(** ** The shutdown sweeper *)

Section Sweeper.

Variable E : Env.

Lemma delete_all_deleted containers w :
  deleted (trace (snd (delete_all E containers w))) = rev containers ++ deleted (trace w).
Proof.
  revert w. induction containers as [| id rest IH]; intros w; [done |].
  simpl. step. destruct (container_Delete E id w); simpl; rewrite IH; simpl;
    by rewrite <- app_assoc.
Qed.

Lemma delete_all_ext containers w : ext sweep_event w (snd (delete_all E containers w)).
Proof.
  revert w. induction containers as [| id rest IH]; intros w; [apply ext_refl |].
  simpl. step. destruct (container_Delete E id w); simpl;
    (eapply ext_trans; [| apply IH]).
  - ext_by [EvLog Error "can't delete container %s: %v"; EvDelete id].
  - ext_by [EvDelete id].
Qed.

Lemma cleanup_ext w : ext sweep_event w (snd (cleanup E w)).
Proof.
  unfold cleanup. step.
  destruct (container_ListByLabel E _ w) as [containers [e |]]; simpl.
  - ext_by [EvLog Error "can't list containers: %v"; EvListByLabel (NodeCCMLabelKey E)].
  - eapply ext_trans; [| apply delete_all_ext].
    ext_by [EvListByLabel (NodeCCMLabelKey E)].
Qed.

Lemma delete_all_sweeps containers w :
  sweeps (trace (snd (delete_all E containers w))) = sweeps (trace w).
Proof.
  revert w. induction containers as [| id rest IH]; intros w; [done |].
  simpl. step. destruct (container_Delete E id w); simpl; by rewrite IH.
Qed.

Lemma cleanup_sweeps w :
  sweeps (trace (snd (cleanup E w))) = NodeCCMLabelKey E :: sweeps (trace w).
Proof.
  unfold cleanup. step.
  destruct (container_ListByLabel E _ w) as [containers [e |]]; simpl; [done |].
  by rewrite delete_all_sweeps.
Qed.

(** C10. When listing the tagged resources fails, [cleanup] logs the error
    and stops: the trace gains the listing call and the log line only, so no
    deletion is attempted.  When the listing succeeds, a deletion is attempted
    for every listed resource, in order, whether or not earlier deletions
    failed. *)
Theorem cleanup_listing_failure_deletes_nothing (w : world) :
  match container_ListByLabel E (NodeCCMLabelKey E) w with
  | (_, Some _) =>
      trace (snd (cleanup E w)) =
        EvLog Error "can't list containers: %v" :: EvListByLabel (NodeCCMLabelKey E) :: trace w /\
      deleted (trace (snd (cleanup E w))) = deleted (trace w)
  | (containers, None) =>
      deleted (trace (snd (cleanup E w))) = rev containers ++ deleted (trace w)
  end.
Proof.
  unfold cleanup. step.
  destruct (container_ListByLabel E _ w) as [containers [e |]]; simpl; [done |].
  by rewrite delete_all_deleted.
Qed.

End Sweeper.

(** ** The client bootstrapper *)

Section Bootstrapper.

Variable E : Env.


Lemma probe_loop_fired n i host w :
  fired E (clock w) = true -> probe_loop E (S n) i host w = (Canceled, w).
Proof. intros H. simpl. unfold bind, ctx_Done. by rewrite H. Qed.

Lemma probe_loop_shape n i host w p w' :
  0 <= i ->
  probe_loop E n i host w = (p, w') ->
  exists k : nat,
    (k <= n)%nat /\
    sleeps (trace w') = rev (backoff i k) ++ sleeps (trace w) /\
    clock w' = clock w + total (backoff i k) /\
    next_ctx w' = next_ctx w /\
    match p with
    | Reachable =>
        (k < n)%nat /\ probes (trace w') = replicate (S k) host ++ probes (trace w) /\
        fired E (clock w') = false
    | Unreachable =>
        k = n /\ probes (trace w') = replicate k host ++ probes (trace w) /\
        ((0 < n)%nat -> fired E (clock w' - Second * (i + Z.of_nat n - 1)) = false)
    | Canceled =>
        (k < n)%nat /\ probes (trace w') = replicate k host ++ probes (trace w) /\
        fired E (clock w') = true
    end.
Proof.
  revert i w. induction n as [| n IH]; intros i w Hi Hrun.
  - injection Hrun as <- <-. exists 0%nat. simpl. repeat split; try done; lia.
  - simpl in Hrun. unfold bind at 1 in Hrun. unfold ctx_Done at 1 in Hrun.
    assert (Hmax : Z.max 0 (Second * i) = Second * i) by (unfold Second; lia).
    destruct (fired E (clock w)) eqn:Hf.
    + injection Hrun as <- <-. exists 0%nat. simpl. repeat split; try done; lia.
    + unfold bind at 1 in Hrun.
      pose proof (probeHTTP_clock E host w) as Hc.
      pose proof (probeHTTP_probes E host w) as Hp.
      pose proof (probeHTTP_sleeps E host w) as Hs.
      pose proof (probeHTTP_ext E host w) as (_ & _ & Hn).
      destruct (probeHTTP E host w) as [[|] w1]; simpl in Hc, Hp, Hs, Hn.
      * injection Hrun as <- <-. exists 0%nat. simpl.
        repeat split; try done; try lia. by rewrite Hc.
      * unfold bind in Hrun. simpl in Hrun.
        apply IH in Hrun as (k & Hk & Hsl & Hcl & Hnx & Hres); [| lia].
        simpl in Hsl, Hcl, Hnx, Hres.
        exists (S k). split; [lia |].
        split; [| split; [| split]].
        -- rewrite Hsl, Hs. simpl. by rewrite <- app_assoc.
        -- rewrite Hcl. unfold total. simpl. fold (total (backoff (i + 1) k)). lia.
        -- congruence.
        -- destruct p.
           ++ destruct Hres as (Hlt & Hpr & Hfi). split; [lia |]. split; [| done].
              rewrite Hpr, Hp. rewrite (replicate_S_end (S k)). by rewrite <- app_assoc.
           ++ destruct Hres as (Heq & Hpr & Hfi). split; [lia |]. split.
              { rewrite Hpr, Hp. rewrite (replicate_S_end k). by rewrite <- app_assoc. }
              intros _. destruct n as [| n'].
              ** subst k. simpl in Hcl. unfold total in Hcl. simpl in Hcl.
                 rewrite <- Hf. f_equal. unfold Second in *. lia.
              ** etrans; [| apply Hfi; lia]. f_equal. unfold Second. lia.
           ++ destruct Hres as (Hlt & Hpr & Hfi). split; [lia |]. split; [| done].
              rewrite Hpr, Hp. rewrite (replicate_S_end k). by rewrite <- app_assoc.
Qed.

Lemma probe_loop_ext n i host (P : event -> Prop) w :
  (forall e, probe_event e -> P e) -> (forall d, P (EvSleep d)) ->
  ext P w (snd (probe_loop E n i host w)).
Proof.
  intros HP HS. revert i w. induction n as [| n IH]; intros i w; [apply ext_refl |].
  simpl. unfold bind at 1. unfold ctx_Done at 1.
  destruct (fired E (clock w)); [apply ext_refl |].
  unfold bind at 1.
  pose proof (probeHTTP_ext E host w) as Hx.
  destruct (probeHTTP E host w) as [[|] w1]; simpl in Hx.
  - simpl. by eapply ext_weaken.
  - unfold bind. simpl.
    eapply ext_trans; [eapply ext_weaken; [apply HP | apply Hx] |].
    eapply ext_trans; [| apply IH].
    apply (ext_sleep P (Second * i) w1), HS.
Qed.

End Bootstrapper.

Section Variants.

Variable E : Env.

Lemma try_variant_ext cluster internal w :
  ext (bootstrap_event cluster) w (snd (try_variant E cluster internal w)).
Proof.
  unfold try_variant. rewrite bind_eq. cbn [call fst snd].
  set (w1 := snd (emit (EvKubeConfig cluster internal) w)).
  assert (H1 : ext (bootstrap_event cluster) w w1)
    by (subst w1; ext_by [EvKubeConfig cluster internal]).
  destruct (kind_KubeConfig E cluster internal w) as [kconfig | e].
  - destruct (RESTConfigFromKubeConfig E kconfig) as [config | e].
    + rewrite bind_eq.
      pose proof (probe_loop_ext E 5 0 (Host config) (bootstrap_event cluster) w1) as Hx.
      destruct (probe_loop E 5 0 (Host config) w1) as [p w2]. cbn [fst snd] in *.
      assert (H2 : ext (bootstrap_event cluster) w w2).
      { eapply ext_trans; [apply H1 | apply Hx]; [by intros [] | done]. }
      destruct p; [| | done].
      * destruct (NewForConfig E config); [done |].
        eapply ext_trans; [apply H2 |].
        ext_by [EvLog Error "Failed to create kubeClient for cluster %s: %v"].
      * eapply ext_trans; [apply H2 |].
        ext_by [EvLog Error "Failed to connect to apiserver %s: %v"].
    + eapply ext_trans; [apply H1 |].
      ext_by [EvLog Error "Failed to convert kubeconfig for cluster %s: %v"].
  - eapply ext_trans; [apply H1 |].
    ext_by [EvLog Error "Failed to get kubeconfig for cluster %s: %v"].
Qed.

Lemma try_variant_tried cluster internal w :
  variants_tried (trace (snd (try_variant E cluster internal w))) =
    internal :: variants_tried (trace w).
Proof.
  unfold try_variant. rewrite bind_eq. cbn [call fst snd].
  set (w1 := snd (emit (EvKubeConfig cluster internal) w)).
  change (internal :: variants_tried (trace w)) with (variants_tried (trace w1)).
  assert (Hq : forall w2, ext probing_event w1 w2 ->
                          variants_tried (trace w2) = variants_tried (trace w1)).
  { intros w2. apply ext_view. by intros []. }
  clearbody w1.
  destruct (kind_KubeConfig E cluster internal w) as [kconfig | e]; [| done].
  destruct (RESTConfigFromKubeConfig E kconfig) as [config | e]; [| done].
  rewrite bind_eq.
  assert (Hx : ext probing_event w1 (snd (probe_loop E 5 0 (Host config) w1)))
    by (apply probe_loop_ext; [by intros [] | done]).
  apply Hq in Hx.
  destruct (probe_loop E 5 0 (Host config) w1) as [p w2]. cbn [fst snd] in *.
  destruct p; [| done | done].
  by destruct (NewForConfig E config).
Qed.

Lemma try_variant_outcome cluster internal w :
  fst (try_variant E cluster internal w) =
    match kind_KubeConfig E cluster internal w with
    | Err _ => NextVariant
    | Ok kconfig =>
        match RESTConfigFromKubeConfig E kconfig with
        | Err _ => NextVariant
        | Ok config =>
            match fst (probe_loop E 5 0 (Host config)
                         (snd (emit (EvKubeConfig cluster internal) w))) with
            | Canceled => Return (Err ErrCanceled)
            | Unreachable => NextVariant
            | Reachable =>
                match NewForConfig E config with
                | Ok client => Return (Ok client)
                | Err _ => NextVariant
                end
            end
        end
    end.
Proof.
  unfold try_variant. rewrite bind_eq. cbn [call fst snd].
  destruct (kind_KubeConfig E cluster internal w) as [kconfig | e]; [| done].
  destruct (RESTConfigFromKubeConfig E kconfig) as [config | e]; [| done].
  rewrite bind_eq.
  destruct (probe_loop E 5 0 (Host config) _) as [p w2]. cbn [fst snd].
  destruct p; [| done | done].
  by destruct (NewForConfig E config).
Qed.

Lemma getKubeClient_from_ext variants cluster w :
  ext (bootstrap_event cluster) w (snd (getKubeClient_from E variants cluster w)).
Proof.
  revert w. induction variants as [| internal rest IH]; intros w; [apply ext_refl |].
  simpl. unfold bind.
  pose proof (try_variant_ext cluster internal w) as Hx.
  destruct (try_variant E cluster internal w) as [[| r] w1]; simpl in Hx; [| done].
  eapply ext_trans; [apply Hx | apply IH].
Qed.

Lemma getKubeClient_ext cluster w :
  ext (bootstrap_event cluster) w (snd (getKubeClient E cluster w)).
Proof. apply getKubeClient_from_ext. Qed.

End Variants.

Section Bootstrap.

Variable E : Env.

(** C4, as amended.  [getKubeClient] tries the external variant first and
    the internal one only when the external one falls through; a variant
    falls through when its connection material cannot be obtained or parsed,
    when none of its probes is answered, and also when the client cannot be
    built from a configuration whose host did answer; the first variant that
    is answered and yields a client ends the call with that client; when both
    fall through the call ends with the no-working-clientset error. *)
Theorem getKubeClient_variants (cluster : string) (w : world) :
  let first := try_variant E cluster false w in
  let second := try_variant E cluster true (snd first) in
  getKubeClient E cluster w =
    match fst first with
    | Return r => (r, snd first)
    | NextVariant =>
        match fst second with
        | Return r => (r, snd second)
        | NextVariant => (Err ErrNoClientset, snd second)
        end
    end /\
  variants_tried (trace (snd first)) = false :: variants_tried (trace w) /\
  variants_tried (trace (snd second)) = true :: false :: variants_tried (trace w) /\
  forall internal w0,
    fst (try_variant E cluster internal w0) =
      match kind_KubeConfig E cluster internal w0 with
      | Err _ => NextVariant
      | Ok kconfig =>
          match RESTConfigFromKubeConfig E kconfig with
          | Err _ => NextVariant
          | Ok config =>
              match fst (probe_loop E 5 0 (Host config)
                           (snd (emit (EvKubeConfig cluster internal) w0))) with
              | Canceled => Return (Err ErrCanceled)
              | Unreachable => NextVariant
              | Reachable =>
                  match NewForConfig E config with
                  | Ok client => Return (Ok client)
                  | Err _ => NextVariant
                  end
              end
          end
      end.
Proof.
  intros first second. split; [| split; [| split]].
  - unfold getKubeClient. cbn [getKubeClient_from]. rewrite bind_eq.
    fold first. destruct (fst first); [| done].
    rewrite bind_eq. fold second. by destruct (fst second).
  - apply try_variant_tried.
  - subst second first. rewrite try_variant_tried. by rewrite try_variant_tried.
  - intros internal w0. apply try_variant_outcome.
Qed.

(** C5, as amended.  Probing one variant makes at most 5 attempts against
    the configured host; failed attempt number i is followed by a wait of i
    seconds that always runs in full (0, 1, 2, 3, 4 seconds, the last one
    after the fifth attempt); the cancellation signal is looked at only just
    before an attempt, and when it has fired by then the whole bootstrap ends
    with the caller's cancellation error and no further variant is tried. *)
Theorem probing_backoff (cluster : string) (internal : bool) (rest : list bool)
    (w : world) (kconfig : string) (config : restConfig)
    (Hmaterial : kind_KubeConfig E cluster internal w = Ok kconfig)
    (Hparsed : RESTConfigFromKubeConfig E kconfig = Ok config) :
  let asked := snd (emit (EvKubeConfig cluster internal) w) in
  let p := fst (probe_loop E 5 0 (Host config) asked) in
  let w' := snd (probe_loop E 5 0 (Host config) asked) in
  exists k : nat,
    (k <= 5)%nat /\
    sleeps (trace w') =
      rev (take k [0; 1 * Second; 2 * Second; 3 * Second; 4 * Second]) ++ sleeps (trace asked) /\
    clock w' =
      clock asked + total (take k [0; 1 * Second; 2 * Second; 3 * Second; 4 * Second]) /\
    match p with
    | Reachable =>
        (k < 5)%nat /\
        probes (trace w') = replicate (S k) (Host config) ++ probes (trace asked) /\
        fired E (clock w') = false
    | Unreachable =>
        k = 5%nat /\
        probes (trace w') = replicate 5 (Host config) ++ probes (trace asked) /\
        fired E (clock w' - 4 * Second) = false
    | Canceled =>
        (k < 5)%nat /\
        probes (trace w') = replicate k (Host config) ++ probes (trace asked) /\
        fired E (clock w') = true /\
        getKubeClient_from E (internal :: rest) cluster w = (Err ErrCanceled, w')
    end.
Proof.
  intros asked p w'.
  destruct (probe_loop E 5 0 (Host config) asked) as [p0 w0] eqn:Hrun.
  subst p w'. cbn [fst snd].
  pose proof (probe_loop_shape E 5 0 (Host config) asked p0 w0 ltac:(lia) Hrun)
    as (k & Hk & Hsl & Hcl & _ & Hres).
  exists k. split; [done |].
  assert (Hb : backoff 0 k = take k [0; 1 * Second; 2 * Second; 3 * Second; 4 * Second]).
  { do 6 (destruct k as [| k]; [reflexivity |]). lia. }
  rewrite <- Hb. split; [done |]. split; [done |].
  destruct p0.
  - done.
  - destruct Hres as (-> & Hpr & Hfi). split; [done |]. split; [done |].
    specialize (Hfi ltac:(lia)). by rewrite <- Hfi.
  - destruct Hres as (Hlt & Hpr & Hfi). repeat split; try done.
    cbn [getKubeClient_from]. rewrite bind_eq.
    unfold try_variant. rewrite !bind_eq. cbn [call fst snd].
    rewrite Hmaterial, Hparsed. rewrite !bind_eq. fold asked. by rewrite Hrun.
Qed.

End Bootstrap.

(** The external endpoint of A answers every probe, yet the client that
    [getKubeClient] hands back is the one of the internal variant. *)
Lemma answered_external_not_returned :
  let E := Scenario.env Scenario.external_client_broken in
  fst (probe_loop E 5 0 "A/external"
         (snd (emit (EvKubeConfig "A" false) Scenario.w0))) = Reachable /\
  fst (getKubeClient E "A" Scenario.w0) = Ok (KubeClient "A/internal") /\
  variants_tried (trace (snd (getKubeClient E "A" Scenario.w0))) = [true; false].
Proof. vm_compute. done. Qed.

(** The signal fires at 17 s, during the 4-second wait that follows the last
    probe of the last variant (16 s to 20 s): the wait runs in full and the
    bootstrap ends at 20 s with the no-working-clientset error, not with the
    cancellation error. *)
Lemma signal_during_last_wait_ignored :
  let E := Scenario.env (Scenario.nothing_answers (Some (17 * Second))) in
  fired E (17 * Second) = true /\
  fst (getKubeClient E "A" Scenario.w0) = Err ErrNoClientset /\
  clock (snd (getKubeClient E "A" Scenario.w0)) = 20 * Second /\
  head (sleeps (trace (snd (getKubeClient E "A" Scenario.w0)))) = Some (4 * Second).
Proof. vm_compute. done. Qed.

(** The signal fires at 0.5 s, during the 1-second wait after the second
    failed probe: the next check, at 1 s, ends the bootstrap. *)
Lemma probing_backoff_witness :
  let E := Scenario.env (Scenario.nothing_answers (Some 500000000)) in
  exists k : nat,
    (k <= 5)%nat /\
    clock (snd (probe_loop E 5 0 "A/external" (snd (emit (EvKubeConfig "A" false) Scenario.w0)))) =
      total (take k [0; 1 * Second; 2 * Second; 3 * Second; 4 * Second]) /\
    getKubeClient_from E [false; true] "A" Scenario.w0 =
      (Err ErrCanceled,
       snd (probe_loop E 5 0 "A/external" (snd (emit (EvKubeConfig "A" false) Scenario.w0)))).
Proof.
  intros E.
  destruct (probing_backoff E "A" false [true] Scenario.w0 "A/external"
              {| Host := "A/external" |} eq_refl eq_refl)
    as (k & Hk & _ & Hclock & Hres).
  exists k. split; [exact Hk |]. split; [exact Hclock |].
  exact (proj2 (proj2 (proj2 Hres))).
Defined.

(** ** The readiness wait *)

Section Readiness.

Variable E : Env.

Lemma healthy_run client w :
  healthy E client w =
    ((bool_decide (healthz E client w = StatusOK), None),
     snd (emit (EvHealthz client (clock w)) w)).
Proof.
  unfold healthy. rewrite bind_eq. cbn [call fst snd].
  destruct (decide (healthz E client w ≠ StatusOK)) as [Hne | Heq].
  - by rewrite bool_decide_eq_false_2.
  - rewrite bool_decide_eq_true_2; [done |].
    by destruct (decide (healthz E client w = StatusOK)).
Qed.


(** What the ticking part of the poll does with the health condition:
    [m] checks, one per tick, all strictly before the deadline. *)
Lemma poll_ticks_shape n interval deadline client w r w' :
  0 < interval ->
  poll_ticks E n interval deadline (healthy E client) w = (r, w') ->
  exists m : nat,
    (m <= n)%nat /\
    trace w' = (EvHealthz client <$> rev (instants (clock w + interval) interval m)) ++ trace w /\
    ((0 < m)%nat -> clock w + interval * Z.of_nat m < deadline) /\
    next_ctx w' = next_ctx w /\
    clock w <= clock w' /\
    clock w' <= Z.max (clock w) deadline /\
    (forall c, cancel_at E = Some c -> clock w' <= Z.max (clock w) c) /\
    match r with
    | None => (0 < m)%nat /\ clock w' = clock w + interval * Z.of_nat m
    | Some e => e = ErrWaitTimeout
    end.
Proof.
  intros Hi. revert w. induction n as [| n IH]; intros w Hrun.
  - injection Hrun as <- <-. exists 0%nat. simpl. repeat split; try done; lia.
  - cbn [poll_ticks] in Hrun.
    destruct (fired E (Z.min (clock w + interval) deadline)) eqn:Hf.
    + rewrite bind_eq in Hrun. injection Hrun as <- <-.
      exists 0%nat. simpl. repeat split; try done; try lia.
      * unfold fired in Hf. destruct (cancel_at E) as [c |]; [simpl | done].
        apply Z.leb_le in Hf. lia.
      * intros c Hc. rewrite Hc. simpl. lia.
    + destruct (deadline <=? clock w + interval) eqn:Hd.
      * rewrite bind_eq in Hrun. injection Hrun as <- <-.
        exists 0%nat. simpl. repeat split; try done; try lia.
        intros c Hc. unfold fired in Hf. rewrite Hc in Hf.
        apply Z.leb_gt in Hf. apply Z.leb_le in Hd. lia.
      * apply Z.leb_gt in Hd.
        rewrite bind_eq in Hrun. rewrite bind_eq in Hrun.
        rewrite healthy_run in Hrun. cbn [fst snd] in Hrun.
        set (w1 := snd (advance (clock w + interval) w)) in *.
        assert (Hc1 : clock w1 = clock w + interval) by (subst w1; simpl; lia).
        assert (Ht1 : trace w1 = trace w) by done.
        assert (Hn1 : next_ctx w1 = next_ctx w) by done.
        clearbody w1.
        assert (Hcan : forall c, cancel_at E = Some c -> clock w + interval < c).
        { intros c Hc. unfold fired in Hf. rewrite Hc in Hf. apply Z.leb_gt in Hf. lia. }
        destruct (bool_decide (healthz E client w1 = StatusOK)).
        -- injection Hrun as <- <-. exists 1%nat. simpl.
           rewrite Hc1, Ht1, Hn1. repeat split; try done; try lia.
           intros c Hc. specialize (Hcan c Hc). lia.
        -- apply IH in Hrun as (m & Hm & Htr & Hlt & Hnx & Hlo & Hhi & Hcb & Hres).
           simpl in Htr, Hlt, Hnx, Hlo, Hhi, Hcb, Hres.
           rewrite ?Hc1, ?Ht1, ?Hn1 in *.
           exists (S m). split; [lia |]. split; [| split; [| split; [| split; [| split; [| split]]]]].
           ++ rewrite Htr. cbn [instants]. simpl.
              rewrite fmap_app. simpl. by rewrite <- app_assoc.
           ++ intros _. destruct m as [| m]; [lia |]. specialize (Hlt ltac:(lia)). lia.
           ++ done.
           ++ lia.
           ++ lia.
           ++ intros c Hc. specialize (Hcb c Hc). specialize (Hcan c Hc). lia.
           ++ destruct r as [e |]; [done |]. destruct Hres as [Hpos ->]. split; lia.
Qed.

(** Without a ready answer and without the signal, the ticking part runs
    into the deadline. *)
Lemma poll_ticks_timeout n interval client w (j : nat) :
  0 < interval ->
  cancel_at E = None ->
  (forall w0, healthz E client w0 ≠ StatusOK) ->
  (j < n)%nat ->
  poll_ticks E n interval (clock w + interval * Z.of_nat (S j)) (healthy E client) w =
    (Some ErrWaitTimeout,
     {| clock := clock w + interval * Z.of_nat (S j);
        trace := (EvHealthz client <$> rev (instants (clock w + interval) interval j)) ++ trace w;
        next_ctx := next_ctx w |}).
Proof.
  intros Hi Hc Hne. revert w j. induction n as [| n IH]; intros w j Hj; [lia |].
  cbn [poll_ticks]. unfold fired. rewrite Hc.
  destruct j as [| j].
  - rewrite (proj2 (Z.leb_le _ _)) by lia.
    rewrite bind_eq. simpl. do 2 f_equal. lia.
  - rewrite (proj2 (Z.leb_gt _ _)) by lia.
    rewrite bind_eq, bind_eq, healthy_run. cbn [fst snd].
    rewrite bool_decide_eq_false_2 by apply Hne.
    set (w1 := snd (emit _ _)).
    assert (Hc1 : clock w1 = clock w + interval) by (subst w1; simpl; lia).
    replace (clock w + interval * Z.of_nat (S (S j)))
      with (clock w1 + interval * Z.of_nat (S j)) by lia.
    rewrite IH by lia. rewrite Hc1. f_equal. f_equal.
    subst w1. simpl. cbn [instants]. simpl. rewrite fmap_app. simpl.
    rewrite <- app_assoc. simpl. do 3 f_equal. lia.
Qed.

End Readiness.

Section Launcher.

Variable E : Env.

Lemma poll_shape client w r w' :
  PollImmediateWithContext E (1 * Second) (30 * Second) (healthy E client) w = (r, w') ->
  exists m : nat,
    (1 <= m <= 30)%nat /\
    trace w' = (EvHealthz client <$> rev (instants (clock w) (1 * Second) m)) ++ trace w /\
    next_ctx w' = next_ctx w /\
    clock w <= clock w' <= clock w + 30 * Second /\
    (forall c, cancel_at E = Some c -> clock w' <= Z.max (clock w) c) /\
    match r with
    | None => clock w' = clock w + 1 * Second * (Z.of_nat m - 1)
    | Some e => e = ErrWaitTimeout
    end.
Proof.
  unfold PollImmediateWithContext. rewrite bind_eq, healthy_run. cbn [fst snd].
  destruct (bool_decide (healthz E client w = StatusOK)).
  - intros [= <- <-]. exists 1%nat. simpl. repeat split; try done; try lia.
    unfold Second. lia.
  - intros Hrun.
    apply poll_ticks_shape in Hrun as (m & _ & Htr & Hlt & Hnx & Hlo & Hhi & Hcb & Hres);
      [| unfold Second; lia].
    simpl in Htr, Hlt, Hnx, Hlo, Hhi, Hcb, Hres.
    assert (Hm : (m < 30)%nat).
    { destruct m as [| m]; [lia |]. specialize (Hlt ltac:(lia)). unfold Second in Hlt. lia. }
    exists (S m). split; [lia |]. split; [| split; [done | split; [| split; [done |]]]].
    + rewrite Htr. cbn [instants]. simpl. rewrite fmap_app. simpl. by rewrite <- app_assoc.
    + unfold Second in *. lia.
    + destruct r as [e |]; [done |]. destruct Hres as [_ ->]. lia.
Qed.

Lemma poll_never_ready client w :
  cancel_at E = None ->
  (forall w0, healthz E client w0 ≠ StatusOK) ->
  PollImmediateWithContext E (1 * Second) (30 * Second) (healthy E client) w =
    (Some ErrWaitTimeout,
     {| clock := clock w + 30 * Second;
        trace := (EvHealthz client <$> rev (instants (clock w) (1 * Second) 30)) ++ trace w;
        next_ctx := next_ctx w |}).
Proof.
  intros Hc Hne.
  unfold PollImmediateWithContext. rewrite bind_eq, healthy_run. cbn [fst snd].
  rewrite bool_decide_eq_false_2 by apply Hne.
  change (S (Z.to_nat (30 * Second / Z.max 1 (1 * Second)))) with 31%nat.
  set (w1 := snd (emit _ _)).
  replace (clock w + 30 * Second) with (clock w1 + 1 * Second * Z.of_nat 30)
    by (subst w1; simpl; lia).
  rewrite (poll_ticks_timeout E 31 (1 * Second) client w1 29); try done; lia.
Qed.

Lemma poll_ready_needs_200 client w :
  (forall w0, healthz E client w0 ≠ StatusOK) ->
  fst (PollImmediateWithContext E (1 * Second) (30 * Second) (healthy E client) w) ≠ None.
Proof.
  intros Hne.
  unfold PollImmediateWithContext. rewrite bind_eq, healthy_run. cbn [fst snd].
  rewrite bool_decide_eq_false_2 by apply Hne.
  generalize (S (Z.to_nat (30 * Second / Z.max 1 (1 * Second)))).
  generalize (clock w + 30 * Second). intros deadline n.
  generalize (snd (emit (EvHealthz client (clock w)) w)). clear w.
  induction n as [| n IH]; intros w; [done |].
  cbn [poll_ticks].
  destruct (fired E _); [by rewrite bind_eq |].
  destruct (_ <=? _); [by rewrite bind_eq |].
  rewrite bind_eq, bind_eq, healthy_run. cbn [fst snd].
  rewrite bool_decide_eq_false_2 by apply Hne. apply IH.
Qed.

Lemma poll_not_ready_before_signal client w t :
  cancel_at E = Some t ->
  (forall w0, clock w0 < t -> healthz E client w0 ≠ StatusOK) ->
  clock w < t ->
  fst (PollImmediateWithContext E (1 * Second) (30 * Second) (healthy E client) w) ≠ None.
Proof.
  intros Hsome Hne Hw.
  unfold PollImmediateWithContext. rewrite bind_eq, healthy_run. cbn [fst snd].
  rewrite bool_decide_eq_false_2 by (by apply Hne).
  generalize (S (Z.to_nat (30 * Second / Z.max 1 (1 * Second)))).
  generalize (clock w + 30 * Second). intros deadline n.
  assert (Hw1 : clock (snd (emit (EvHealthz client (clock w)) w)) < t) by done.
  revert Hw1. generalize (snd (emit (EvHealthz client (clock w)) w)). clear w Hw.
  induction n as [| n IH]; intros w Hw; [done |].
  cbn [poll_ticks].
  destruct (fired E _) eqn:Hf; [by rewrite bind_eq |].
  destruct (_ <=? _) eqn:Hd; [by rewrite bind_eq |].
  unfold fired in Hf. rewrite Hsome in Hf. apply Z.leb_gt in Hf, Hd.
  rewrite bind_eq, bind_eq, healthy_run. cbn [fst snd].
  rewrite bool_decide_eq_false_2 by (apply Hne; simpl; lia).
  apply IH. simpl. lia.
Qed.

Lemma startCloudControllerManager_shape name client cloud w r w' :
  startCloudControllerManager E name client cloud w = (r, w') ->
  exists m : nat,
    (1 <= m <= 30)%nat /\
    clock w <= clock w' <= clock w + 30 * Second /\
    (forall c, cancel_at E = Some c -> clock w' <= Z.max (clock w) c) /\
    let hc := EvHealthz client <$> rev (instants (clock w) (1 * Second) m) in
    let id := next_ctx w in
    match r with
    | Ok h =>
        cancelFn h = id /\ next_ctx w' = S id /\
        trace w' =
          [EvInformersStart name id; EvGoNodeRun name id; EvNewNodeController name;
           EvGoServiceRun name id; EvWithCancel id; EvNewServiceController name]
          ++ hc ++ trace w
    | Err e =>
        (e = ErrWaitTimeout /\ next_ctx w' = id /\
         trace w' =
           EvLog Error "Failed waiting for apiserver to be ready: %v" :: hc ++ trace w) \/
        (next_ctx w' = id /\
         trace w' =
           [EvLog Error "Failed to start service controller: %v"; EvNewServiceController name]
           ++ hc ++ trace w) \/
        (next_ctx w' = S id /\
         trace w' =
           [EvCancel id; EvLog Error "Failed to start node controller: %v";
            EvNewNodeController name; EvGoServiceRun name id; EvWithCancel id;
            EvNewServiceController name]
           ++ hc ++ trace w)
    end.
Proof.
  unfold startCloudControllerManager. rewrite bind_eq.
  destruct (PollImmediateWithContext E _ _ _ w) as [err w1] eqn:Hpoll.
  apply poll_shape in Hpoll as (m & Hm & Htr & Hnx & Hck & Hcb & Hres).
  cbn [fst snd]. intros Hrun. exists m. split; [done |].
  destruct err as [e |].
  - subst e. rewrite bind_eq in Hrun. injection Hrun as <- <-. simpl.
    split; [done |]. split; [done |]. left. by rewrite Htr, Hnx.
  - rewrite bind_eq in Hrun. cbn [call fst snd] in Hrun.
    destruct (servicecontroller_New E cloud client name w1) as [sc | e].
    + rewrite !bind_eq in Hrun. cbn [call fst snd context_WithCancel] in Hrun.
      destruct (nodecontroller_New E client cloud _) as [nc | e].
      * rewrite !bind_eq in Hrun. injection Hrun as <- <-. simpl.
        split; [done |]. split; [done |]. by rewrite Htr, Hnx.
      * rewrite !bind_eq in Hrun. injection Hrun as <- <-. simpl.
        split; [done |]. split; [done |]. right. right. by rewrite Htr, Hnx.
    + rewrite bind_eq in Hrun. injection Hrun as <- <-. simpl.
      split; [done |]. split; [done |]. right. left. by rewrite Htr, Hnx.
Qed.

End Launcher.

(** ** The lifecycle invariant *)

Section Lifecycle.

Implicit Types (m : gmap string ccm) (st : list (string * nat)) (cn : list nat).

Lemma lifecycle_empty : lifecycle ∅ [] [] 0.
Proof.
  split; try by constructor.
  - intros k id. split.
    + intros (h & Hh & _). by rewrite lookup_empty in Hh.
    + intros [Hin _]. by apply elem_of_nil in Hin.
  - intros k id Hin. by apply elem_of_nil in Hin.
  - intros id Hin. by apply elem_of_nil in Hin.
Qed.

Lemma lifecycle_later m st cn nx nx' :
  (nx <= nx')%nat -> lifecycle m st cn nx -> lifecycle m st cn nx'.
Proof.
  intros Hle [Hk Hs Hc Hn Hd]. split; try done.
  - intros k id Hin. specialize (Hs k id Hin). lia.
  - intros id Hin. specialize (Hc id Hin). lia.
Qed.

(** A launch that failed after deriving its context: the fresh control is
    invoked, nothing else changes. *)
Lemma lifecycle_cancel_fresh m st cn nx :
  lifecycle m st cn nx -> lifecycle m st (nx :: cn) (S nx).
Proof.
  intros [Hk Hs Hc Hn Hd]. split.
  - intros k id. rewrite Hk. split.
    + intros [Hin Hnot]. split; [done |].
      intros [-> | Hc']%elem_of_cons; [| done]. specialize (Hs k nx Hin). lia.
    + intros [Hin Hnot]. split; [done |]. intros Hc'. apply Hnot. by right.
  - intros k id Hin. specialize (Hs k id Hin). lia.
  - intros id [-> | Hin]%elem_of_cons; [lia |]. specialize (Hc id Hin). lia.
  - done.
  - constructor; [| done]. intros Hin. specialize (Hc nx Hin). lia.
Qed.

(** A launch that completed for an absent identifier. *)
Lemma lifecycle_insert m st cn nx k h :
  m !! k = None -> cancelFn h = nx ->
  lifecycle m st cn nx -> lifecycle (<[k := h]> m) ((k, nx) :: st) cn (S nx).
Proof.
  intros Hnone Hid [Hk Hs Hc Hn Hd]. split.
  - intros k' id. split.
    + intros (h' & Hlook & Hid').
      destruct (decide (k = k')) as [<- | Hne].
      * rewrite lookup_insert_eq in Hlook. injection Hlook as <-.
        assert (id = nx) as -> by congruence.
        split; [by left |].
        intros Hin. specialize (Hc nx Hin). lia.
      * rewrite lookup_insert_ne in Hlook by done.
        destruct (proj1 (Hk k' id)) as [Hin Hnot]; [by exists h' |].
        split; [by right | done].
    + intros [[Heq | Hin]%elem_of_cons Hnot].
      * injection Heq as -> ->. exists h. by rewrite lookup_insert_eq.
      * destruct (proj2 (Hk k' id)) as (h' & Hlook & Hid'); [done |].
        exists h'. split; [| done].
        rewrite lookup_insert_ne; [done |]. intros <-. by rewrite Hnone in Hlook.
  - intros k' id [Heq | Hin]%elem_of_cons.
    + injection Heq as -> ->. lia.
    + specialize (Hs k' id Hin). lia.
  - intros id Hin. specialize (Hc id Hin). lia.
  - simpl. constructor; [| done].
    intros ([k' id] & Heq & Hin)%list_elem_of_fmap. simpl in Heq. subst id.
    specialize (Hs k' nx Hin). lia.
  - done.
Qed.

(** A removal: the control of the handle under [k] is invoked and the key
    goes. *)
Lemma lifecycle_remove m st cn nx k h :
  m !! k = Some h ->
  lifecycle m st cn nx -> lifecycle (delete k m) st (cancelFn h :: cn) nx.
Proof.
  intros Hsome [Hk Hs Hc Hn Hd].
  assert (Hmine : (k, cancelFn h) ∈ st /\ cancelFn h ∉ cn) by (apply Hk; by exists h).
  assert (Hown : forall k', (k', cancelFn h) ∈ st -> k' = k).
  { intros k' Hin. destruct Hmine as [Hin' _].
    apply list_elem_of_lookup in Hin as [i Hi]. apply list_elem_of_lookup in Hin' as [j Hj].
    assert (i = j).
    { eapply (NoDup_lookup _ i j (cancelFn h) Hn); rewrite list_lookup_fmap.
      - by rewrite Hi.
      - by rewrite Hj. }
    subst j. congruence. }
  split.
  - intros k' id. split.
    + intros (h' & Hlook & Hid').
      destruct (decide (k = k')) as [<- | Hne]; [by rewrite lookup_delete_eq in Hlook |].
      rewrite lookup_delete_ne in Hlook by done.
      destruct (proj1 (Hk k' id)) as [Hin Hnot]; [by exists h' |].
      split; [done |].
      intros [-> | Hc']%elem_of_cons; [| done]. by apply Hne, eq_sym, Hown.
    + intros [Hin Hnot].
      destruct (proj2 (Hk k' id)) as (h' & Hlook & Hid').
      { split; [done |]. intros Hc'. apply Hnot. by right. }
      exists h'. split; [| done].
      rewrite lookup_delete_ne; [done |].
      intros <-. apply Hnot. assert (id = cancelFn h) as -> by congruence. by left.
  - done.
  - intros id [-> | Hin]%elem_of_cons; [| by apply Hc].
    destruct Hmine as [Hin _]. by apply (Hs k).
  - done.
  - constructor; [by destruct Hmine | done].
Qed.

Lemma never_yet (id : nat) (cn : list nat) :
  id ∉ cn -> length (filter (fun x => x = id) cn) = 0%nat.
Proof.
  induction cn as [| x l IH]; intros Hnot; [done |].
  apply not_elem_of_cons in Hnot as [Hne Hnot].
  rewrite filter_cons_False by congruence. by apply IH.
Qed.

Lemma exactly_once (id : nat) (cn : list nat) :
  NoDup cn -> id ∈ cn -> length (filter (fun x => x = id) cn) = 1%nat.
Proof.
  induction 1 as [| x l Hx Hl IH]; intros Hin; [by apply elem_of_nil in Hin |].
  destruct (decide (x = id)) as [-> | Hne].
  - rewrite filter_cons_True by done. simpl. f_equal. by apply never_yet.
  - rewrite filter_cons_False by done.
    apply elem_of_cons in Hin as [-> | Hin]; [done | by apply IH].
Qed.

End Lifecycle.

(** ** The fleet reconciler *)

Section Reconciler.

Variable E : Env.

Lemma view_none {A} (f : event -> option A) (P : event -> Prop) (l : list event) :
  (forall e, P e -> f e = None) -> Forall P l -> omap f l = [].
Proof.
  intros Hf. induction 1 as [| e l He _ IH]; [done |]. simpl. by rewrite (Hf e He).
Qed.

Lemma health_events client ts (P : event -> Prop) :
  (forall t, P (EvHealthz client t)) -> Forall P (EvHealthz client <$> ts).
Proof. intros HP. induction ts; simpl; by constructor. Qed.

Lemma started_health client ts l :
  started ((EvHealthz client <$> ts) ++ l) = started l.
Proof. induction ts; by simpl. Qed.

Lemma canceled_health client ts l :
  canceled ((EvHealthz client <$> ts) ++ l) = canceled l.
Proof. induction ts; by simpl. Qed.

Lemma started_app l1 l2 : started (l1 ++ l2) = started l1 ++ started l2.
Proof. apply omap_app. Qed.

Lemma canceled_app l1 l2 : canceled (l1 ++ l2) = canceled l1 ++ canceled l2.
Proof. apply omap_app. Qed.

(** What a launch adds, seen through the lifecycle views. *)
Lemma startCloudControllerManager_delta name client cloud w r w' :
  startCloudControllerManager E name client cloud w = (r, w') ->
  exists new,
    trace w' = new ++ trace w /\
    Forall (cluster_event name) new /\
    clock w <= clock w' /\
    match r with
    | Ok h =>
        cancelFn h = next_ctx w /\ next_ctx w' = S (next_ctx w) /\
        started new = [(name, next_ctx w)] /\ canceled new = []
    | Err _ =>
        started new = [] /\
        ((canceled new = [] /\ next_ctx w' = next_ctx w) \/
         (canceled new = [next_ctx w] /\ next_ctx w' = S (next_ctx w)))
    end.
Proof.
  intros Hrun.
  apply startCloudControllerManager_shape in Hrun as (m & _ & Hck & _ & Hres).
  cbn zeta in Hres.
  set (hc := EvHealthz client <$> rev (instants (clock w) (1 * Second) m)) in *.
  assert (Hh : Forall (cluster_event name) hc) by (by apply health_events).
  assert (Hs : forall l, started (hc ++ l) = started l) by apply started_health.
  assert (Hc : forall l, canceled (hc ++ l) = canceled l) by apply canceled_health.
  clearbody hc.
  destruct r as [h | e].
  - destruct Hres as (Hid & Hnx & Htr). eexists. split; [by rewrite Htr, app_assoc |].
    split; [| split; [lia |]].
    + apply Forall_app. split; [by repeat constructor | done].
    + repeat split; try done.
      * rewrite <- (app_nil_r hc). simpl. by rewrite Hs.
      * rewrite <- (app_nil_r hc). simpl. by rewrite Hc.
  - destruct Hres as [(_ & Hnx & Htr) | [(Hnx & Htr) | (Hnx & Htr)]].
    + exists (EvLog Error "Failed waiting for apiserver to be ready: %v" :: hc).
      split; [done |]. split; [by constructor |]. split; [lia |].
      rewrite <- (app_nil_r hc). simpl. rewrite Hs, Hc. split; [done |]. by left.
    + eexists. split; [by rewrite Htr, app_assoc |].
      split; [| split; [lia |]].
      * apply Forall_app. split; [by repeat constructor | done].
      * rewrite <- (app_nil_r hc). simpl. rewrite Hs, Hc. split; [done |]. by left.
    + eexists. split; [by rewrite Htr, app_assoc |].
      split; [| split; [lia |]].
      * apply Forall_app. split; [by repeat constructor | done].
      * rewrite <- (app_nil_r hc). simpl. rewrite Hs, Hc. split; [done |]. by right.
Qed.

(** What one iteration of the additions loop does to the controller, the
    trace and the clock. *)
Lemma add_cluster_spec cluster c w c' w' :
  add_cluster E cluster c w = (c', w') ->
  exists new,
    trace w' = new ++ trace w /\
    Forall (cluster_event cluster) new /\
    clock w <= clock w' /\
    (is_Some (clusters c !! cluster) ->
     c' = c /\ Forall log_event new /\ clock w' = clock w /\ next_ctx w' = next_ctx w) /\
    ((c' = c /\ started new = [] /\ canceled new = [] /\ next_ctx w' = next_ctx w) \/
     (c' = c /\ started new = [] /\ canceled new = [next_ctx w] /\
      next_ctx w' = S (next_ctx w)) \/
     (clusters c !! cluster = None /\
      exists h, c' = {| clusters := <[cluster := h]> (clusters c) |} /\
                cancelFn h = next_ctx w /\
                started new = [(cluster, next_ctx w)] /\ canceled new = [] /\
                next_ctx w' = S (next_ctx w))).
Proof.
  unfold add_cluster. rewrite bind_eq. cbn [klog emit fst snd].
  set (w0 := {| clock := clock w |}).
  destruct (clusters c !! cluster) as [h0 |] eqn:Hlook.
  - rewrite bind_eq. intros [= <- <-].
    exists [EvLog (V 3) "cluster %s already exist"; EvLog (V 3) "processing cluster %s"].
    simpl. split; [done |]. split; [by repeat constructor |]. split; [lia |].
    split; [intros _; repeat split; by repeat constructor |]. by left.
  - rewrite bind_eq.
    pose proof (getKubeClient_ext E cluster w0) as [(n1 & Hn1 & Fn1) [Hc1 Hx1]].
    change (clock w0) with (clock w) in Hc1.
    change (next_ctx w0) with (next_ctx w) in Hx1.
    change (trace w0) with (EvLog (V 3) "processing cluster %s" :: trace w) in Hn1.
    assert (Hs1 : started n1 = [])
      by (apply (view_none _ (bootstrap_event cluster)); [by intros [] | done]).
    assert (Hk1 : canceled n1 = [])
      by (apply (view_none _ (bootstrap_event cluster)); [by intros [] | done]).
    assert (Fc1 : Forall (cluster_event cluster) n1)
      by (eapply Forall_impl; [apply Fn1 | by intros []]).
    destruct (getKubeClient E cluster w0) as [[kubeClient | e] w1]; cbn [fst snd] in *.
    + rewrite bind_eq. cbn [klog emit fst snd]. rewrite bind_eq.
      set (w2 := {| clock := clock w1 |}).
      destruct (startCloudControllerManager E cluster kubeClient (Cloud cluster) w2)
        as [r w3] eqn:Hstart.
      apply startCloudControllerManager_delta in Hstart as (nL & HnL & FnL & Hck & Hres).
      cbn [fst snd]. simpl in HnL, Hck, Hres. rewrite Hn1 in HnL. rewrite Hx1 in Hres.
      set (mid := nL ++ EvLog (V 2) "Creating new cloud provider for cluster %s" :: n1
                  ++ [EvLog (V 3) "processing cluster %s"]).
      assert (Hmid : trace w3 = mid ++ trace w)
        by (subst mid; rewrite HnL; simpl; repeat (rewrite <- app_assoc; simpl); done).
      assert (Fmid : Forall (cluster_event cluster) mid).
      { subst mid. apply Forall_app. split; [done |]. constructor; [done |].
        apply Forall_app. split; [done | by repeat constructor]. }
      assert (Smid : started mid = started nL).
      { subst mid. rewrite started_app. simpl. rewrite started_app, Hs1. simpl.
        by rewrite app_nil_r. }
      assert (Cmid : canceled mid = canceled nL).
      { subst mid. rewrite canceled_app. simpl. rewrite canceled_app, Hk1. simpl.
        by rewrite app_nil_r. }
      clearbody mid.
      destruct r as [h | e]; rewrite bind_eq; intros [= <- <-]; simpl.
      * exists (EvLog Info "Starting cloud controller for cluster %s" :: mid).
        rewrite Hmid. split; [done |]. split; [by constructor |].
        split; [lia |]. split; [by intros [? ?] |].
        destruct Hres as (Hid & Hnx & Hst & Hcn).
        right. right. split; [done |]. exists h. simpl. rewrite Smid, Cmid. by repeat split.
      * exists (EvLog Error "Failed to start cloud controller for cluster %s: %v" :: mid).
        rewrite Hmid. split; [done |]. split; [by constructor |].
        split; [lia |]. split; [by intros [? ?] |].
        simpl. rewrite Smid, Cmid.
        destruct Hres as (Hst & [(Hcn & Hnx) | (Hcn & Hnx)]).
        -- by left.
        -- right. by left.
    + rewrite bind_eq. intros [= <- <-].
      exists (EvLog Error "Failed to create kubeClient for cluster %s: %v" :: n1
              ++ [EvLog (V 3) "processing cluster %s"]).
      simpl. rewrite Hn1. simpl.
      split; [by rewrite <- !app_assoc |].
      split.
      { constructor; [done |]. apply Forall_app. split; [done | by repeat constructor]. }
      split; [lia |]. split; [by intros [? ?] |].
      left. split; [done |].
      rewrite started_app, canceled_app, Hs1, Hk1. by rewrite Hx1.
Qed.

Lemma grows_refl P w : grows P w w.
Proof. exists []. split; [done | constructor]. Qed.

Lemma grows_trans P w1 w2 w3 : grows P w1 w2 -> grows P w2 w3 -> grows P w1 w3.
Proof.
  intros (n1 & E1 & F1) (n2 & E2 & F2). exists (n2 ++ n1).
  split; [by rewrite E2, E1, app_assoc | by apply Forall_app].
Qed.

Lemma grows_weaken (P Q : event -> Prop) w w' :
  (forall e, P e -> Q e) -> grows P w w' -> grows Q w w'.
Proof. intros HPQ (n & En & Fn). exists n. split; [done | by eapply Forall_impl]. Qed.

Lemma ext_grows P w w' : ext P w w' -> grows P w w'.
Proof. by intros [H _]. Qed.

Lemma fresh_cycle_event c e : fresh_event c e -> cycle_event c e.
Proof.
  intros (cluster & Hc & Hlog). destruct e; simpl in *; try done; subst.
  - destruct (clusters c !! cluster) eqn:Hl; [| done]. by destruct Hlog.
  - destruct (clusters c !! cluster) eqn:Hl; [| done]. by destruct Hlog.
Qed.

Lemma add_new_spec listed c w f c' w' :
  add_new E listed c w = ((f, c'), w') ->
  Inv c w ->
  Inv c' w' /\
  grows (fresh_event c) w w' /\
  clock w <= clock w' /\
  (forall k h, clusters c !! k = Some h -> clusters c' !! k = Some h) /\
  (f = Exit -> fired E (clock w') = true).
Proof.
  revert c w. induction listed as [| cluster rest IH]; intros c w Hrun HInv.
  - injection Hrun as <- <- <-.
    split; [done |]. split; [apply grows_refl |]. split; [lia |]. by split.
  - cbn [add_new] in Hrun. rewrite bind_eq in Hrun. cbn [ctx_Done fst snd] in Hrun.
    destruct (fired E (clock w)) eqn:Hf.
    + injection Hrun as <- <- <-.
      split; [done |]. split; [apply grows_refl |]. split; [lia |]. by split.
    + rewrite bind_eq in Hrun.
      destruct (add_cluster E cluster c w) as [c1 w1] eqn:Hadd. cbn [fst snd] in Hrun.
      apply add_cluster_spec in Hadd as (new & Htr & Fnew & Hck & Hpresent & Hcases).
      assert (HInv1 : Inv c1 w1 /\
                      forall k h, clusters c !! k = Some h -> clusters c1 !! k = Some h).
      { unfold Inv in *. rewrite Htr, started_app, canceled_app.
        destruct Hcases as [(-> & -> & -> & ->) | [(-> & -> & -> & ->) | (Hnone & h & -> & Hid & -> & -> & ->)]];
          simpl.
        - done.
        - split; [by apply lifecycle_cancel_fresh | done].
        - split; [by apply lifecycle_insert |].
          intros k h0 Hk. rewrite lookup_insert_ne; [done |]. intros <-. congruence. }
      destruct HInv1 as [HInv1 Hkeep1].
      apply IH in Hrun as (HInv' & Hgr & Hck' & Hkeep & Hexit); [| done].
      split; [done |]. split; [| split; [lia | split; [| done]]].
      * eapply grows_trans.
        -- exists new. split; [done |].
           apply Forall_forall. intros e He. exists cluster.
           split; [by eapply Forall_forall in Fnew |].
           intros Hsome. destruct (Hpresent Hsome) as (_ & Flog & _).
           by eapply Forall_forall in Flog.
        -- eapply grows_weaken; [| apply Hgr].
           intros e (cl & Hce & Hlog). exists cl. split; [done |].
           intros [h Hh]. apply Hlog. exists h. by apply Hkeep1.
      * intros k h Hk. by apply Hkeep, Hkeep1.
Qed.

Lemma remove_from_spec (clusterSet : gset string) entries c w c' w' :
  remove_from clusterSet entries c w = (c', w') ->
  NoDup (entries.*1) ->
  (forall k h, (k, h) ∈ entries -> clusters c !! k = Some h) ->
  Inv c w ->
  Inv c' w' /\
  ext removal_event w w' /\
  clock w' = clock w /\
  (forall k, clusters c' !! k =
             if decide (k ∈ entries.*1 /\ k ∉ clusterSet) then None else clusters c !! k) /\
  (forall k h, (k, h) ∈ entries -> k ∉ clusterSet -> cancelFn h ∈ canceled (trace w')) /\
  (forall id, id ∈ canceled (trace w) -> id ∈ canceled (trace w')).
Proof.
  revert c w. induction entries as [| [k h] rest IH]; intros c w Hrun Hnd Hin HInv.
  - injection Hrun as <- <-. split; [done |]. split; [apply ext_refl |]. split; [done |].
    split; [| split; [| done]].
    + intros k. destruct (decide _) as [[Hk _] |]; [| done]. by apply elem_of_nil in Hk.
    + intros k h Hk. by apply elem_of_nil in Hk.
  - cbn [remove_from] in Hrun. rewrite fmap_cons in Hnd. apply NoDup_cons in Hnd as [Hk Hnd].
    destruct (decide (k ∈ clusterSet)) as [Hlisted | Hgone].
    + apply IH in Hrun as (HInv' & Hext & Hck & Hlook & Hcan & Hmono); try done.
      2:{ intros k' h' Hk'. apply Hin. by right. }
      split; [done |]. split; [done |]. split; [done |]. split; [| split; [| done]].
      * intros k'. rewrite Hlook. rewrite fmap_cons. simpl.
        destruct (decide (k' ∈ rest.*1 /\ k' ∉ clusterSet)) as [[H1 H2] | Hn];
          destruct (decide (k' ∈ k :: rest.*1 /\ k' ∉ clusterSet)) as [[H3 H4] | Hn'];
          try done.
        -- exfalso. apply Hn'. split; [by right | done].
        -- apply elem_of_cons in H3 as [-> | H3]; [done |]. exfalso. by apply Hn.
      * intros k' h' [[= -> ->] | Hk']%elem_of_cons Hnot; [done | by eapply Hcan].
    + rewrite !bind_eq in Hrun. cbn [klog cancel emit fst snd] in Hrun.
      set (w1 := {| clock := clock w |}) in Hrun.
      assert (Hsome : clusters c !! k = Some h) by (apply Hin; by left).
      apply IH in Hrun as (HInv' & Hext & Hck & Hlook & Hcan & Hmono); try done.
      2:{ intros k' h' Hk'. simpl. rewrite lookup_delete_ne; [apply Hin; by right |].
          intros <-. apply Hk. apply list_elem_of_fmap. by exists (k, h'). }
      2:{ unfold Inv. simpl. by apply lifecycle_remove. }
      split; [done |]. split; [| split; [done | split; [| split]]].
      * eapply ext_trans; [| apply Hext].
        subst w1. ext_by [EvCancel (cancelFn h);
                          EvLog Info "Stopping service controller for cluster %s"].
      * intros k'. rewrite Hlook. rewrite fmap_cons. simpl.
        destruct (decide (k' ∈ rest.*1 /\ k' ∉ clusterSet)) as [[H1 H2] | Hn];
          destruct (decide (k' ∈ k :: rest.*1 /\ k' ∉ clusterSet)) as [[H3 H4] | Hn'];
          try done.
        -- exfalso. apply Hn'. split; [by right | done].
        -- apply elem_of_cons in H3 as [-> | H3]; [apply lookup_delete_eq |].
           exfalso. by apply Hn.
        -- rewrite lookup_delete_ne; [done |]. intros <-. apply Hn'. split; [by left | done].
      * intros k' h' [[= -> ->] | Hk']%elem_of_cons Hnot; [| by eapply Hcan].
        apply Hmono. simpl. by left.
      * intros id Hid. apply Hmono. simpl. by right.
Qed.

Lemma remove_expired_spec listed c w c' w' :
  remove_expired listed c w = (c', w') ->
  Inv c w ->
  Inv c' w' /\
  ext removal_event w w' /\
  clock w' = clock w /\
  (forall k, clusters c' !! k = if decide (k ∈ listed) then clusters c !! k else None) /\
  (forall k h, clusters c !! k = Some h -> k ∉ listed -> cancelFn h ∈ canceled (trace w')).
Proof.
  unfold remove_expired. intros Hrun HInv.
  apply remove_from_spec in Hrun as (HInv' & Hext & Hck & Hlook & Hcan & _); try done.
  2:{ apply NoDup_fst_map_to_list. }
  2:{ intros k h. by rewrite elem_of_map_to_list. }
  split; [done |]. split; [done |]. split; [done |]. split.
  - intros k. rewrite Hlook.
    destruct (decide (k ∈ listed)) as [Hl | Hnl];
      destruct (decide _) as [[H1 H2] | Hn]; try done.
    + exfalso. apply H2. by apply elem_of_list_to_set.
    + destruct (clusters c !! k) as [h |] eqn:Hk; [| done].
      exfalso. apply Hn. split.
      * apply list_elem_of_fmap. exists (k, h). split; [done |]. by apply elem_of_map_to_list.
      * by rewrite elem_of_list_to_set.
  - intros k h Hk Hnl. apply (Hcan k h); [by apply elem_of_map_to_list |].
    by rewrite elem_of_list_to_set.
Qed.

(** One turn of the outer loop. *)
Lemma cycle_spec c w f c' w' :
  cycle E c w = ((f, c'), w') ->
  Inv c w ->
  Inv c' w' /\
  grows (cycle_event c) w w' /\
  clock w <= clock w' /\
  match f with
  | Exit => fired E (clock w') = true
  | Continue =>
      fired E (clock w) = false /\
      clock w + 30 * Second <= clock w' /\
      (forall k, is_Some (clusters c' !! k) -> k ∈ fst (kind_List E w)) /\
      (forall k h, clusters c !! k = Some h -> k ∈ fst (kind_List E w) ->
                   clusters c' !! k = Some h) /\
      (forall k h, clusters c !! k = Some h -> k ∉ fst (kind_List E w) ->
                   clusters c' !! k = None /\
                   (cancelFn h ∉ canceled (trace w)) /\
                   cancelFn h ∈ canceled (trace w'))
  end.
Proof.
  unfold cycle. rewrite bind_eq. cbn [ctx_Done fst snd].
  destruct (fired E (clock w)) eqn:Hf.
  - intros [= <- <- <-] HInv. split; [done |]. split; [apply grows_refl |]. split; [lia | done].
  - rewrite bind_eq. cbn [call fst snd].
    destruct (kind_List E w) as [listed err] eqn:Hlist. rewrite bind_eq.
    set (w2 := snd ((match err with
                     | Some _ => klog Info "error listing clusters, retrying ...: %v"
                     | None => ret tt
                     end) (snd (emit EvList w)))).
    assert (H2 : ext (cycle_event c) w w2).
    { subst w2. destruct err; simpl.
      - ext_by [EvLog Info "error listing clusters, retrying ...: %v"; EvList].
      - ext_by [EvList]. }
    assert (Hv2 : started (trace w2) = started (trace w) /\
                  canceled (trace w2) = canceled (trace w) /\ next_ctx w2 = next_ctx w).
    { subst w2. by destruct err. }
    clearbody w2. destruct Hv2 as (Hs2 & Hc2 & Hn2).
    rewrite bind_eq.
    destruct (add_new E listed c w2) as [[f1 c1] w3] eqn:Hadd. cbn [fst snd].
    intros Hrun HInv.
    assert (HInv2 : Inv c w2) by (unfold Inv in *; by rewrite Hs2, Hc2, Hn2).
    apply add_new_spec in Hadd as (HInv3 & Hgr3 & Hck3 & Hkeep & Hexit); [| done].
    apply (grows_weaken _ (cycle_event c)) in Hgr3; [| apply fresh_cycle_event].
    destruct H2 as [Hgr2 [Hck2 _]].
    destruct f1.
    + rewrite bind_eq in Hrun.
      destruct (remove_expired listed c1 w3) as [c2 w4] eqn:Hrem. cbn [fst snd] in Hrun.
      apply remove_expired_spec in Hrem as (HInv4 & Hext4 & Hck4 & Hlook & Hcan); [| done].
      rewrite bind_eq in Hrun. injection Hrun as <- <- <-. simpl.
      split.
      { unfold Inv in *. simpl. done. }
      split.
      { eapply grows_trans; [apply Hgr2 |]. eapply grows_trans; [apply Hgr3 |].
        eapply grows_trans.
        - eapply grows_weaken; [| apply ext_grows, Hext4]. by intros [].
        - exists [EvSleep (30 * Second)]. simpl. split; [done | by repeat constructor]. }
      split; [unfold Second; lia |].
      split; [done |]. split; [unfold Second; lia |]. split; [| split].
      * intros k [h Hk]. rewrite Hlook in Hk. by destruct (decide (k ∈ listed)).
      * intros k h Hk Hl. rewrite Hlook. rewrite decide_True by done. by apply Hkeep.
      * intros k h Hk Hl. split; [| split].
        -- rewrite Hlook. by rewrite decide_False.
        -- destruct HInv as [Hkeys _ _ _ _].
           destruct (proj1 (Hkeys k (cancelFn h))) as [_ Hnot]; [by exists h | done].
        -- apply (Hcan k h); [by apply Hkeep | done].
    + injection Hrun as <- <- <-. split; [done |].
      split; [eapply grows_trans; [apply Hgr2 | apply Hgr3] |].
      split; [lia | by apply Hexit].
Qed.

(** Facts about one turn that need no invariant. *)

Lemma add_cluster_progress cluster c w :
  grows loop_event w (snd (add_cluster E cluster c w)) /\
  clock w <= clock (snd (add_cluster E cluster c w)).
Proof.
  destruct (add_cluster E cluster c w) as [c' w'] eqn:Hadd.
  apply add_cluster_spec in Hadd as (new & Htr & Fnew & Hck & _).
  split; [| done]. exists new. split; [done |].
  eapply Forall_impl; [apply Fnew | by intros []].
Qed.

Lemma add_new_progress listed c w :
  grows loop_event w (snd (add_new E listed c w)) /\
  clock w <= clock (snd (add_new E listed c w)) /\
  (fst (fst (add_new E listed c w)) = Exit ->
   fired E (clock (snd (add_new E listed c w))) = true).
Proof.
  revert c w. induction listed as [| cluster rest IH]; intros c w.
  - simpl. split; [apply grows_refl |]. split; [lia | done].
  - cbn [add_new]. rewrite bind_eq. cbn [ctx_Done fst snd].
    destruct (fired E (clock w)) eqn:Hf.
    + simpl. split; [apply grows_refl |]. split; [lia | done].
    + rewrite bind_eq.
      destruct (add_cluster_progress cluster c w) as [Hg Hc].
      destruct (IH (fst (add_cluster E cluster c w)) (snd (add_cluster E cluster c w)))
        as (Hg' & Hc' & Hx').
      split; [by eapply grows_trans |]. split; [lia | done].
Qed.

Lemma remove_from_ext (clusterSet : gset string) entries c w :
  ext removal_event w (snd (remove_from clusterSet entries c w)) /\
  clock (snd (remove_from clusterSet entries c w)) = clock w.
Proof.
  revert c w. induction entries as [| [k h] rest IH]; intros c w.
  - split; [apply ext_refl | done].
  - cbn [remove_from]. destruct (decide (k ∈ clusterSet)); [apply IH |].
    rewrite !bind_eq. cbn [klog cancel emit fst snd].
    match goal with
    | |- context [remove_from _ _ ?c1 ?w1] => destruct (IH c1 w1) as [Hx Hc]
    end.
    split; [| exact Hc].
    eapply ext_trans; [| apply Hx].
    ext_by [EvCancel (cancelFn h);
            EvLog Info "Stopping service controller for cluster %s"].
Qed.

(** A turn that goes on ends with the full 30-second sleep; a turn that
    stops has seen the signal. *)
Lemma cycle_progress c w :
  grows loop_event w (snd (cycle E c w)) /\
  clock w <= clock (snd (cycle E c w)) /\
  match fst (fst (cycle E c w)) with
  | Exit => fired E (clock (snd (cycle E c w))) = true
  | Continue =>
      fired E (clock w) = false /\
      exists before, clock w <= clock before /\
                     snd (cycle E c w) = snd (time_Sleep (30 * Second) before)
  end.
Proof.
  unfold cycle. rewrite bind_eq. cbn [ctx_Done fst snd].
  destruct (fired E (clock w)) eqn:Hf.
  - simpl. split; [apply grows_refl |]. split; [lia | done].
  - rewrite bind_eq. cbn [call fst snd].
    destruct (kind_List E w) as [listed err]. rewrite bind_eq.
    set (w2 := snd ((match err with
                     | Some _ => klog Info "error listing clusters, retrying ...: %v"
                     | None => ret tt
                     end) (snd (emit EvList w)))).
    assert (H2 : ext loop_event w w2).
    { subst w2. destruct err; simpl.
      - ext_by [EvLog Info "error listing clusters, retrying ...: %v"; EvList].
      - ext_by [EvList]. }
    clearbody w2. destruct H2 as [Hg2 [Hc2 _]].
    rewrite bind_eq.
    destruct (add_new_progress listed c w2) as (Hg3 & Hc3 & Hx3).
    destruct (add_new E listed c w2) as [[f1 c1] w3]. cbn [fst snd] in *.
    destruct f1.
    + rewrite bind_eq. unfold remove_expired.
      destruct (remove_from_ext (list_to_set listed) (map_to_list (clusters c1)) c1 w3)
        as [[Hg4 _] Hc4].
      destruct (remove_from _ _ c1 w3) as [c2 w4]. cbn [fst snd] in *.
      rewrite bind_eq. cbn [fst snd].
      split.
      { eapply grows_trans; [apply Hg2 |]. eapply grows_trans; [apply Hg3 |].
        eapply grows_trans.
        - eapply grows_weaken; [| apply Hg4]. by intros [].
        - exists [EvSleep (30 * Second)]. split; [done | by repeat constructor]. }
      split; [simpl; unfold Second; lia |].
      split; [done |]. exists w4. split; [lia | done].
    + simpl. split; [by eapply grows_trans |]. split; [lia | by apply Hx3].
Qed.

Lemma loop_exit fuel c w c' w' :
  loop E fuel c w = Some (c', w') ->
  fired E (clock w') = true /\ grows loop_event w w' /\ clock w <= clock w'.
Proof.
  revert c w. induction fuel as [| fuel IH]; intros c w; [done |].
  cbn [loop].
  destruct (cycle_progress c w) as (Hg & Hc & Hf).
  destruct (cycle E c w) as [[f c1] w1]. cbn [fst snd] in *.
  destruct f.
  - intros Hrun. apply IH in Hrun as (Hf' & Hg' & Hc').
    split; [done |]. split; [by eapply grows_trans | lia].
  - intros [= <- <-]. done.
Qed.

Lemma loop_never fuel c w : cancel_at E = None -> loop E fuel c w = None.
Proof.
  intros Hnone. revert c w. induction fuel as [| fuel IH]; intros c w; [done |].
  cbn [loop].
  destruct (cycle_progress c w) as (_ & _ & Hf).
  destruct (cycle E c w) as [[f c1] w1]. cbn [fst snd] in *.
  destruct f; [apply IH |].
  unfold fired in Hf. by rewrite Hnone in Hf.
Qed.

Lemma loop_returns t (n : nat) c w :
  cancel_at E = Some t ->
  t <= clock w + 30 * Second * Z.of_nat n ->
  is_Some (loop E (S n) c w).
Proof.
  intros Hsome. revert c w. induction n as [| n IH]; intros c w Ht.
  - cbn [loop]. unfold cycle. rewrite bind_eq. cbn [ctx_Done fst snd].
    unfold fired. rewrite Hsome. rewrite (proj2 (Z.leb_le _ _)) by lia. by eexists.
  - change (loop E (S (S n)) c w) with
      (match cycle E c w with
       | ((Exit, c'), w') => Some (c', w')
       | ((Continue, c'), w') => loop E (S n) c' w'
       end).
    destruct (cycle_progress c w) as (_ & _ & Hf).
    destruct (cycle E c w) as [[f c1] w1]. cbn [fst snd] in *.
    destruct f; [| by eexists].
    destruct Hf as (_ & before & Hb & ->). apply IH. simpl. unfold Second in *. lia.
Qed.

Lemma Inv_initial t : Inv New {| clock := t; trace := []; next_ctx := 0 |}.
Proof. apply lifecycle_empty. Qed.

End Reconciler.

(** ** Properties of the reconciliation loop *)

Section Loop.

Variable E : Env.

Lemma cycle_Inv c w : Inv c w -> Inv (snd (fst (cycle E c w))) (snd (cycle E c w)).
Proof.
  intros HInv. destruct (cycle E c w) as [[f c'] w'] eqn:Hc.
  by apply cycle_spec in Hc as [H _].
Qed.

(** The invariant holds after any number of turns from the initial state. *)
Lemma loop_Inv fuel c w c' w' : Inv c w -> loop E fuel c w = Some (c', w') -> Inv c' w'.
Proof.
  revert c w. induction fuel as [| fuel IH]; intros c w HInv; [done |].
  cbn [loop]. pose proof (cycle_Inv c w HInv) as H1.
  destruct (cycle E c w) as [[f c1] w1]. cbn [fst snd] in H1.
  destruct f; [by apply IH | by intros [= <- <-]].
Qed.

(** C2, as amended.  From any state that satisfies the lifecycle invariant
    (an identifier is a key exactly when a launch of it completed and the
    cancellation control of that launch has not been invoked; the initial
    state does, see [Inv_initial]), one turn of the loop keeps the invariant;
    it neither bootstraps nor launches an identifier that was a key when the
    turn began; and when the turn is not cut short by the process-level
    signal and the listing succeeded, every key absent from the listing has
    been removed and its cancellation control, never invoked before, has been
    invoked exactly once. *)
Theorem fleet_lifecycle (c : Controller) (w : world) (HInv : Inv c w) :
  let f := fst (fst (cycle E c w)) in
  let c' := snd (fst (cycle E c w)) in
  let w' := snd (cycle E c w) in
  Inv c' w' /\
  (exists new, trace w' = new ++ trace w /\
               forall k, is_Some (clusters c !! k) ->
                         (k ∉ bootstrapped new) /\ k ∉ launched new) /\
  (f = Continue ->
   forall listed k h,
     kind_List E w = (listed, None) -> clusters c !! k = Some h -> k ∉ listed ->
     clusters c' !! k = None /\
     times_canceled (cancelFn h) (trace w) = 0%nat /\
     times_canceled (cancelFn h) (trace w') = 1%nat).
Proof.
  intros f c' w'. subst f c' w'.
  destruct (cycle E c w) as [[f c'] w'] eqn:Hc. cbn [fst snd].
  apply cycle_spec in Hc as (HInv' & (new & Htr & Fnew) & _ & Hf); [| done].
  split; [done |]. split.
  - exists new. split; [done |]. intros k [h Hk]. split.
    + intros Hin. unfold bootstrapped in Hin. apply list_elem_of_omap in Hin as (e & He & Hek).
      eapply Forall_forall in Fnew; [| apply He].
      destruct e; try done. injection Hek as ->. simpl in Fnew. congruence.
    + intros Hin. unfold launched in Hin. apply list_elem_of_omap in Hin as (e & He & Hek).
      eapply Forall_forall in Fnew; [| apply He].
      destruct e; try done. injection Hek as ->. simpl in Fnew. congruence.
  - intros -> listed k h Hlist Hk Hgone.
    destruct Hf as (_ & _ & _ & _ & Hrem).
    rewrite Hlist in Hrem. destruct (Hrem k h Hk Hgone) as (Hnone & Hnot & Hin).
    split; [done |]. split.
    + by apply never_yet.
    + apply exactly_once; [| done]. by destruct HInv'.
Qed.

(** C9.  [Run] returns only from a turn that saw the signal fired, and then
    the sweeper has run exactly once, after everything the loop did; without
    a signal [Run] never returns, whatever the collaborators answer; and once
    a signal is set [Run] does return. *)
Theorem Run_exits_only_on_signal :
  (forall fuel c w c' w',
     Run E fuel c w = Some (c', w') ->
     exists w_exit looped swept,
       loop E fuel c w = Some (c', w_exit) /\
       fired E (clock w_exit) = true /\
       w' = snd (cleanup E w_exit) /\
       trace w_exit = looped ++ trace w /\ Forall loop_event looped /\
       trace w' = swept ++ trace w_exit /\ Forall sweep_event swept /\
       sweeps looped = [] /\ sweeps swept = [NodeCCMLabelKey E]) /\
  (cancel_at E = None -> forall fuel c w, Run E fuel c w = None) /\
  (forall t c w, cancel_at E = Some t -> exists fuel, is_Some (Run E fuel c w)).
Proof.
  split; [| split].
  - intros fuel c w c' w'. unfold Run.
    destruct (loop E fuel c w) as [[c1 w1] |] eqn:Hloop; [| done].
    intros [= <- <-].
    apply loop_exit in Hloop as (Hf & (looped & Hl & Fl) & _).
    destruct (cleanup_ext E w1) as [(swept & Hs & Fs) _].
    exists w1, looped, swept. repeat split; try done.
    + apply (view_none _ loop_event); [by intros [] | done].
    + pose proof (cleanup_sweeps E w1) as Hsw. rewrite Hs in Hsw.
      unfold sweeps in *. rewrite omap_app in Hsw.
      change (NodeCCMLabelKey E :: ?l) with ([NodeCCMLabelKey E] ++ l) in Hsw.
      by apply app_inv_tail in Hsw.
  - intros Hnone fuel c w. unfold Run. by rewrite loop_never.
  - intros t c w Hsome.
    exists (S (Z.to_nat (Z.max 0 (t - clock w)))).
    unfold Run.
    destruct (loop_returns E t (Z.to_nat (Z.max 0 (t - clock w))) c w Hsome) as [[c1 w1] ->];
      [unfold Second; lia | by eexists].
Qed.

End Loop.

(** A was launched in the first turn.  In the second turn the listing
    succeeds without A, but the signal fires while B is being probed and the
    turn stops at the next identifier: A is still a key and its cancellation
    control has not been invoked. *)
Lemma aborted_turn_skips_removal :
  let E := Scenario.env Scenario.interrupted in
  let '(c1, w1) := Scenario.after_first Scenario.interrupted in
  clusters c1 !! "A" = Some (Scenario.handle "A" false 0) /\
  Inv c1 w1 /\
  kind_List E w1 = (["B"; "C"], None) /\
  fst (fst (cycle E c1 w1)) = Exit /\
  clusters (snd (fst (cycle E c1 w1))) !! "A" = Some (Scenario.handle "A" false 0) /\
  times_canceled 0 (trace (snd (cycle E c1 w1))) = 0%nat.
Proof.
  cbv zeta. unfold Scenario.after_first.
  split; [by vm_compute |]. split; [apply cycle_Inv, Inv_initial |].
  by vm_compute.
Qed.

Lemma fleet_lifecycle_witness :
  let E := Scenario.env Scenario.replacement in
  let '(c1, w1) := Scenario.after_first Scenario.replacement in
  Inv (snd (fst (cycle E c1 w1))) (snd (cycle E c1 w1)) /\
  (exists new, trace (snd (cycle E c1 w1)) = new ++ trace w1 /\
               ("B" ∉ bootstrapped new) /\ "B" ∉ launched new) /\
  clusters (snd (fst (cycle E c1 w1))) !! "A" = None /\
  times_canceled 0 (trace w1) = 0%nat /\
  times_canceled 0 (trace (snd (cycle E c1 w1))) = 1%nat.
Proof.
  cbv zeta. unfold Scenario.after_first.
  set (E := Scenario.env Scenario.replacement).
  destruct (fleet_lifecycle E New Scenario.w0 (Inv_initial 0)) as (HInv1 & _).
  destruct (fleet_lifecycle E _ _ HInv1) as (HInv2 & (new & Hnew & Hquiet) & H).
  split; [exact HInv2 |]. split.
  - exists new. split; [exact Hnew |]. apply Hquiet. vm_compute. by eexists.
  - apply (H ltac:(vm_compute; reflexivity) ["B"; "C"] "A" (Scenario.handle "A" false 0)).
    + vm_compute. reflexivity.
    + vm_compute. reflexivity.
    + intros [Hx | [Hx | Hx%elem_of_nil]%elem_of_cons]%elem_of_cons; done.
Defined.

Lemma Run_exits_only_on_signal_witness :
  (exists w_exit, loop (Scenario.env (Scenario.fine (Some Second) [])) 2 New Scenario.w0
                    = Some (New, w_exit) /\
                  fired (Scenario.env (Scenario.fine (Some Second) [])) (clock w_exit) = true) /\
  Run (Scenario.env (Scenario.fine None ["A"])) 3 New Scenario.w0 = None /\
  (exists fuel,
     is_Some (Run (Scenario.env (Scenario.fine (Some Second) [])) fuel New Scenario.w0)).
Proof.
  destruct (Run_exits_only_on_signal (Scenario.env (Scenario.fine (Some Second) [])))
    as (Hexit & _ & Hreturns).
  destruct (Run_exits_only_on_signal (Scenario.env (Scenario.fine None ["A"])))
    as (_ & Hnever & _).
  split; [| split].
  - edestruct (Hexit 2%nat New Scenario.w0) as (w_exit & _ & _ & Hloop & Hfired & _).
    + vm_compute. reflexivity.
    + exists w_exit. split; [exact Hloop | exact Hfired].
  - apply Hnever. reflexivity.
  - apply (Hreturns Second). reflexivity.
Defined.

(** C1.  The code at the failing input: A was launched in the first turn;
    in the second turn the listing fails (an empty list and an error).  The
    turn logs the error and goes on: with nothing listed, A's cancellation
    control is invoked and A is removed, so the fleet is empty afterwards. *)
Theorem listing_failure_evicts_fleet :
  let E := Scenario.env Scenario.outage in
  let '(c1, w1) := Scenario.after_first Scenario.outage in
  clusters c1 !! "A" = Some (Scenario.handle "A" false 0) /\
  canceled (trace w1) = [] /\
  kind_List E w1 = ([], Some (ErrExternal "docker unavailable")) /\
  fst (fst (cycle E c1 w1)) = Continue /\
  clusters (snd (fst (cycle E c1 w1))) = ∅ /\
  canceled (trace (snd (cycle E c1 w1))) = [0%nat] /\
  EvLog Info "error listing clusters, retrying ...: %v" ∈ trace (snd (cycle E c1 w1)).
Proof.
  cbv zeta. unfold Scenario.after_first.
  repeat split; try (vm_compute; reflexivity).
  apply list_elem_of_In. vm_compute. tauto.
Qed.

Section Waits.

Variable E : Env.

(** Whatever is listed with an error, a turn that goes on keeps only the
    keys that were listed. *)
Lemma failed_listing_keeps_only_listed c w :
  Inv c w ->
  fst (fst (cycle E c w)) = Continue ->
  forall k, is_Some (clusters (snd (fst (cycle E c w))) !! k) -> k ∈ fst (kind_List E w).
Proof.
  intros HInv. destruct (cycle E c w) as [[f c'] w'] eqn:Hc. cbn [fst snd].
  apply cycle_spec in Hc as (_ & _ & _ & Hf); [| done].
  intros ->. by destruct Hf as (_ & _ & Hkeys & _).
Qed.

(** C3, as amended.  With the signal firing at [t]: a turn, an iteration of
    the additions loop and a probe attempt that begin at or after [t] stop at
    once and do nothing; the launch, whose readiness poll notices the signal
    while it waits, never ends later than [t] when it began before it.  The
    two sleeps have no such check: a turn that goes on always ends with the
    full 30-second sleep, and every wait between probe attempts runs for its
    full length. *)
Theorem signal_observed_at_checks (t : Z) (Hsignal : cancel_at E = Some t) :
  (forall c w, t <= clock w -> cycle E c w = ((Exit, c), w)) /\
  (forall cluster rest c w,
     t <= clock w -> add_new E (cluster :: rest) c w = ((Exit, c), w)) /\
  (forall n i host w, t <= clock w -> probe_loop E (S n) i host w = (Canceled, w)) /\
  (forall name client cloud w,
     clock (snd (startCloudControllerManager E name client cloud w)) <= Z.max (clock w) t) /\
  (forall c w,
     fst (fst (cycle E c w)) = Continue ->
     exists before,
       clock w <= clock before /\
       snd (cycle E c w) = snd (time_Sleep (30 * Second) before) /\
       clock (snd (cycle E c w)) = clock before + 30 * Second) /\
  (forall host w,
     exists k : nat,
       (k <= 5)%nat /\
       sleeps (trace (snd (probe_loop E 5 0 host w))) =
         rev (take k [0; 1 * Second; 2 * Second; 3 * Second; 4 * Second])
         ++ sleeps (trace w) /\
       clock (snd (probe_loop E 5 0 host w)) =
         clock w + total (take k [0; 1 * Second; 2 * Second; 3 * Second; 4 * Second])).
Proof.
  assert (Hfired : forall w, t <= clock w -> fired E (clock w) = true).
  { intros w Hw. unfold fired. rewrite Hsignal. by apply Z.leb_le. }
  split; [| split; [| split; [| split; [| split]]]].
  - intros c w Hw. unfold cycle. rewrite bind_eq. cbn [ctx_Done fst snd].
    by rewrite Hfired.
  - intros cluster rest c w Hw. cbn [add_new]. rewrite bind_eq. cbn [ctx_Done fst snd].
    by rewrite Hfired.
  - intros n i host w Hw. by apply probe_loop_fired, Hfired.
  - intros name client cloud w.
    destruct (startCloudControllerManager E name client cloud w) as [r w'] eqn:Hrun.
    apply startCloudControllerManager_shape in Hrun as (_ & _ & _ & Hcb & _).
    by apply Hcb.
  - intros c w Hgo. destruct (cycle_progress E c w) as (_ & _ & Hf).
    rewrite Hgo in Hf. destruct Hf as (_ & before & Hb & Heq).
    exists before. split; [done |]. split; [done |]. rewrite Heq. simpl. unfold Second. lia.
  - intros host w.
    destruct (probe_loop E 5 0 host w) as [p w'] eqn:Hrun.
    apply probe_loop_shape in Hrun as (k & Hk & Hsl & Hcl & _); [| lia].
    exists k. split; [done |].
    assert (Hb : backoff 0 k = take k [0; 1 * Second; 2 * Second; 3 * Second; 4 * Second]).
    { do 6 (destruct k as [| k]; [reflexivity |]). lia. }
    rewrite <- Hb. by split.
Qed.

End Waits.

(** The signal fires at 1 s, during the inter-cycle sleep that began at 0 s.
    The sleep runs its 30 seconds: after one turn the loop is still running,
    and [Run] returns at 30 s. *)
Lemma sleep_outlasts_signal :
  let E := Scenario.env (Scenario.fine (Some Second) []) in
  cancel_at E = Some Second /\
  loop E 1 New Scenario.w0 = None /\
  exists w', Run E 2 New Scenario.w0 = Some (New, w') /\
             clock w' = 30 * Second /\
             sleeps (trace w') = [30 * Second].
Proof.
  cbv zeta. split; [reflexivity |]. split; [by vm_compute |].
  eexists. split; [vm_compute; reflexivity |]. by vm_compute.
Qed.

Lemma signal_observed_at_checks_witness :
  let E := Scenario.env (Scenario.fine (Some Second) ["A"]) in
  let late := {| clock := 2 * Second; trace := []; next_ctx := 0 |} in
  cycle E New late = ((Exit, New), late) /\
  add_new E ["A"; "B"] New late = ((Exit, New), late) /\
  probe_loop E 5 0 "A/external" late = (Canceled, late) /\
  exists before,
    clock Scenario.w0 <= clock before /\
    snd (cycle E New Scenario.w0) = snd (time_Sleep (30 * Second) before) /\
    clock (snd (cycle E New Scenario.w0)) = clock before + 30 * Second.
Proof.
  intros E late.
  destruct (signal_observed_at_checks E Second eq_refl)
    as (Hturn & Hnext & Hprobe & _ & Hsleep & _).
  assert (Hlate : Second <= clock late) by (simpl; unfold Second; lia).
  split; [apply Hturn, Hlate |]. split; [apply Hnext, Hlate |].
  split; [apply Hprobe, Hlate |].
  apply Hsleep. vm_compute. reflexivity.
Defined.

(** ** Launch failures *)

Section Launch.

Variable E : Env.

Lemma health_checks_health client ts l :
  health_checks ((EvHealthz client <$> ts) ++ l) = ts ++ health_checks l.
Proof. induction ts as [| t ts IH]; simpl; [done | by rewrite <- IH]. Qed.

Lemma spawned_health client ts l :
  spawned ((EvHealthz client <$> ts) ++ l) = spawned l.
Proof. induction ts; by simpl. Qed.

(** A failed launch leaves the controller as it was: the identifier stays
    absent and the additions loop goes on with the next one. *)
Lemma add_cluster_launch_failure cluster c w client :
  clusters c !! cluster = None ->
  fst (getKubeClient E cluster (snd (klog (V 3) "processing cluster %s" w))) = Ok client ->
  is_ok (fst (startCloudControllerManager E cluster client (Cloud cluster)
                (launch_world E cluster w))) = false ->
  fst (add_cluster E cluster c w) = c.
Proof.
  unfold launch_world, add_cluster. intros Hnone Hclient.
  rewrite bind_eq, Hnone, bind_eq. rewrite Hclient.
  rewrite bind_eq, bind_eq.
  destruct (fst (startCloudControllerManager E cluster client (Cloud cluster) _));
    [done | by rewrite bind_eq].
Qed.

(** C7.  The launch first polls the health endpoint: between 1 and 30
    checks, the first at once and the following ones one second apart, so
    all within the 30 seconds after the start.  Only the status 200 counts
    as ready: when the endpoint never answers 200 the launch ends with the
    timeout error, having built nothing and derived no context, no later
    than 30 seconds after it began, and exactly then, after 30 checks, when
    no signal is set.  When the signal fires at [t], after the launch began,
    and the endpoint has not answered 200 before [t], the launch ends with an
    error no later than [t].  [add_cluster] then leaves the controller
    unchanged, so the identifier is still absent at the next turn. *)
Theorem launch_waits_for_readiness (cluster : string) (client : kubeClient)
    (cloud : cloudProvider) (w : world) :
  let r := fst (startCloudControllerManager E cluster client cloud w) in
  let w' := snd (startCloudControllerManager E cluster client cloud w) in
  (exists m : nat,
     (1 <= m <= 30)%nat /\
     health_checks (trace w') = rev (instants (clock w) (1 * Second) m) ++ health_checks (trace w)) /\
  clock w <= clock w' <= clock w + 30 * Second /\
  ((forall w0, healthz E client w0 ≠ StatusOK) ->
   r = Err ErrWaitTimeout /\
   next_ctx w' = next_ctx w /\
   (exists m : nat,
      trace w' = EvLog Error "Failed waiting for apiserver to be ready: %v"
                 :: (EvHealthz client <$> rev (instants (clock w) (1 * Second) m)) ++ trace w) /\
   (cancel_at E = None ->
    clock w' = clock w + 30 * Second /\
    health_checks (trace w') =
      rev (instants (clock w) (1 * Second) 30) ++ health_checks (trace w))) /\
  (forall t,
     cancel_at E = Some t -> clock w < t ->
     (forall w0, clock w0 < t -> healthz E client w0 ≠ StatusOK) ->
     r = Err ErrWaitTimeout /\ clock w' <= t) /\
  (forall c w0 client0,
     clusters c !! cluster = None ->
     fst (getKubeClient E cluster (snd (klog (V 3) "processing cluster %s" w0))) = Ok client0 ->
     is_ok (fst (startCloudControllerManager E cluster client0 (Cloud cluster)
                   (launch_world E cluster w0))) = false ->
     fst (add_cluster E cluster c w0) = c).
Proof.
  intros r w'. subst r w'.
  destruct (startCloudControllerManager E cluster client cloud w) as [r w'] eqn:Hrun.
  cbn [fst snd].
  pose proof Hrun as Hshape.
  apply startCloudControllerManager_shape in Hshape as (m & Hm & Hck & Hcb & Hres).
  cbn zeta in Hres.
  split; [| split; [done | split; [| split]]].
  - exists m. split; [done |].
    destruct r as [h | e].
    + destruct Hres as (_ & _ & ->). simpl. apply health_checks_health.
    + destruct Hres as [(_ & _ & ->) | [(_ & ->) | (_ & ->)]]; simpl;
        apply health_checks_health.
  - intros Hne.
    unfold startCloudControllerManager in Hrun. rewrite bind_eq in Hrun.
    pose proof (poll_ready_needs_200 E client w Hne) as Hpoll.
    destruct (PollImmediateWithContext E _ _ _ w) as [err w1] eqn:Hp. cbn [fst snd] in *.
    destruct err as [e |]; [| done].
    rewrite bind_eq in Hrun. injection Hrun as <- <-.
    pose proof Hp as Hs. apply poll_shape in Hs as (m1 & _ & Htr & Hnx & _ & _ & ->).
    split; [done |]. split; [done |]. split.
    + exists m1. simpl. by rewrite Htr.
    + intros Hnone.
      assert (H30 : clock w1 = clock w + 30 * Second /\
                    trace w1 = (EvHealthz client <$> rev (instants (clock w) (1 * Second) 30))
                               ++ trace w).
      { rewrite (poll_never_ready E client w Hnone Hne) in Hp. by injection Hp as <-. }
      destruct H30 as [Hc30 Ht30].
      change (clock w1 = clock w + 30 * Second /\
              health_checks (trace w1) =
                rev (instants (clock w) (1 * Second) 30) ++ health_checks (trace w)).
      split; [done |]. rewrite Ht30. apply health_checks_health.
  - intros t Hsome Hw Hne. split; [| specialize (Hcb t Hsome); lia].
    unfold startCloudControllerManager in Hrun. rewrite bind_eq in Hrun.
    pose proof (poll_not_ready_before_signal E client w t Hsome Hne Hw) as Hpoll.
    destruct (PollImmediateWithContext E _ _ _ w) as [err w1] eqn:Hp. cbn [fst snd] in *.
    destruct err as [e |]; [| done].
    rewrite bind_eq in Hrun. injection Hrun as <- <-.
    by apply poll_shape in Hp as (_ & _ & _ & _ & _ & _ & ->).
  - intros c w0 client0. apply add_cluster_launch_failure.
Qed.

(** C8.  When the launch ends with an error, no informer factory has been
    started, and every background task the launch started runs under the
    context the launch derived, whose cancellation control the launch invoked
    as its very last step.  A failing constructor of either delegated
    controller makes the launch end with an error, and once the readiness
    poll has succeeded that error is the constructor's own: for the service
    controller before any context is derived or task started, for the node
    controller after the derived context has been canceled.  [add_cluster]
    then leaves the controller unchanged, so the identifier stays absent. *)
Theorem failed_launch_cancels_instance (cluster : string) (client : kubeClient)
    (cloud : cloudProvider) (w : world) :
  let r := fst (startCloudControllerManager E cluster client cloud w) in
  let w' := snd (startCloudControllerManager E cluster client cloud w) in
  let polled :=
    PollImmediateWithContext E (1 * Second) (30 * Second) (healthy E client) w in
  (is_ok r = false ->
   exists new,
     trace w' = new ++ trace w /\
     started new = [] /\
     forall id, id ∈ spawned new ->
                id = next_ctx w /\ head new = Some (EvCancel id) /\ canceled new = [id]) /\
  (forall e0,
     (forall w0, servicecontroller_New E cloud client cluster w0 = Err e0) ->
     is_ok r = false /\ spawned (trace w') = spawned (trace w) /\
     (r = Err e0 \/ r = Err ErrWaitTimeout) /\
     (fst polled = None ->
      r = Err e0 /\ next_ctx w' = next_ctx w /\ canceled (trace w') = canceled (trace w))) /\
  (forall e0,
     (forall w0, nodecontroller_New E client cloud w0 = Err e0) ->
     is_ok r = false /\
     (fst polled = None ->
      is_ok (servicecontroller_New E cloud client cluster (snd polled)) = true ->
      r = Err e0 /\
      head (trace w') = Some (EvCancel (next_ctx w)) /\
      canceled (trace w') = next_ctx w :: canceled (trace w) /\
      spawned (trace w') = next_ctx w :: spawned (trace w))) /\
  (forall c w0 client0,
     clusters c !! cluster = None ->
     fst (getKubeClient E cluster (snd (klog (V 3) "processing cluster %s" w0))) = Ok client0 ->
     is_ok (fst (startCloudControllerManager E cluster client0 (Cloud cluster)
                   (launch_world E cluster w0))) = false ->
     fst (add_cluster E cluster c w0) = c).
Proof.
  intros r w' polled. subst r w' polled.
  destruct (startCloudControllerManager E cluster client cloud w) as [r w'] eqn:Hrun.
  cbn [fst snd].
  pose proof Hrun as Hshape.
  apply startCloudControllerManager_shape in Hshape as (m & _ & _ & _ & Hres).
  cbn zeta in Hres.
  set (hc := EvHealthz client <$> rev (instants (clock w) (1 * Second) m)) in *.
  assert (Hs : forall l, started (hc ++ l) = started l) by apply started_health.
  assert (Hc : forall l, canceled (hc ++ l) = canceled l) by apply canceled_health.
  assert (Hg : forall l, spawned (hc ++ l) = spawned l) by apply spawned_health.
  clearbody hc.
  split; [| split; [| split]].
  - destruct r as [h | e]; [done |]. intros _.
    destruct Hres as [(_ & _ & Htr) | [(_ & Htr) | (_ & Htr)]].
    + exists (EvLog Error "Failed waiting for apiserver to be ready: %v" :: hc).
      split; [done |]. rewrite <- (app_nil_r hc). simpl. rewrite Hs, Hg.
      split; [done |]. intros id Hid. by apply elem_of_nil in Hid.
    + eexists. split; [by rewrite Htr, app_assoc |].
      rewrite <- (app_nil_r hc). simpl. rewrite Hs, Hg.
      split; [done |]. intros id Hid. by apply elem_of_nil in Hid.
    + eexists. split; [by rewrite Htr, app_assoc |].
      rewrite <- (app_nil_r hc). simpl. rewrite Hs, Hg, Hc.
      split; [done |]. intros id Hid. simpl in Hid.
      apply list_elem_of_singleton in Hid as ->. done.
  - intros e0 Hsvc.
    unfold startCloudControllerManager in Hrun. rewrite bind_eq in Hrun.
    destruct (PollImmediateWithContext E _ _ _ w) as [err w1] eqn:Hp. cbn [fst snd] in *.
    apply poll_shape in Hp as (m1 & _ & Htr & Hnx & _ & _ & Hpr).
    destruct err as [e |].
    + rewrite bind_eq in Hrun. injection Hrun as <- <-. subst e. simpl. split; [done |].
      split; [rewrite Htr; apply spawned_health |]. split; [by right | done].
    + rewrite bind_eq in Hrun. cbn [call fst snd] in Hrun. rewrite Hsvc in Hrun.
      rewrite bind_eq in Hrun. injection Hrun as <- <-. simpl. split; [done |].
      split; [rewrite Htr; apply spawned_health |]. split; [by left |].
      intros _. split; [done |]. split; [done |]. rewrite Htr. apply canceled_health.
  - intros e0 Hnode.
    unfold startCloudControllerManager in Hrun. rewrite bind_eq in Hrun.
    destruct (PollImmediateWithContext E _ _ _ w) as [err w1] eqn:Hp. cbn [fst snd] in *.
    apply poll_shape in Hp as (m1 & _ & Htr & Hnx & _).
    destruct err as [e |].
    + rewrite bind_eq in Hrun. by injection Hrun as <- <-.
    + rewrite bind_eq in Hrun. cbn [call fst snd] in Hrun.
      destruct (servicecontroller_New E cloud client cluster w1).
      * rewrite !bind_eq in Hrun. cbn [call fst snd context_WithCancel] in Hrun.
        rewrite Hnode in Hrun. rewrite !bind_eq in Hrun. injection Hrun as <- <-.
        split; [done |]. intros _ _. simpl. rewrite Hnx, Htr.
        split; [done |]. split; [done |].
        split; [by rewrite canceled_health | by rewrite spawned_health].
      * rewrite bind_eq in Hrun. by injection Hrun as <- <-.
  - intros c w0 client0. apply add_cluster_launch_failure.
Qed.

End Launch.

Lemma launch_waits_for_readiness_witness :
  let E := Scenario.env (Scenario.never_ready None) in
  let S := Scenario.env (Scenario.never_ready (Some (2 * Second + 500000000))) in
  let launch := startCloudControllerManager E "D" (KubeClient "D/external") (Cloud "D")
                  Scenario.w0 in
  let launch' := startCloudControllerManager S "D" (KubeClient "D/external") (Cloud "D")
                   Scenario.w0 in
  fst launch = Err ErrWaitTimeout /\
  clock (snd launch) = 30 * Second /\
  health_checks (trace (snd launch)) = rev (instants 0 (1 * Second) 30) /\
  (fst launch' = Err ErrWaitTimeout /\ clock (snd launch') <= 2 * Second + 500000000) /\
  fst (add_cluster E "D" New Scenario.w0) = New.
Proof.
  intros E S launch launch'. subst launch launch'.
  destruct (launch_waits_for_readiness E "D" (KubeClient "D/external") (Cloud "D") Scenario.w0)
    as (_ & _ & Hnever & _ & Hretry).
  destruct (launch_waits_for_readiness S "D" (KubeClient "D/external") (Cloud "D") Scenario.w0)
    as (_ & _ & _ & Hsignal & _).
  destruct Hnever as (Hr & _ & _ & Hfull).
  { intros w0. vm_compute. discriminate. }
  destruct (Hfull eq_refl) as [Hclock Hchecks].
  split; [exact Hr |]. split; [exact Hclock |]. split; [| split].
  - rewrite Hchecks. apply app_nil_r.
  - apply Hsignal.
    + reflexivity.
    + reflexivity.
    + intros w0 _. vm_compute. discriminate.
  - apply (Hretry New Scenario.w0 (KubeClient "D/external")).
    + reflexivity.
    + vm_compute. reflexivity.
    + vm_compute. reflexivity.
Defined.

Lemma failed_launch_cancels_instance_witness :
  let E := Scenario.env Scenario.node_controller_fails in
  let S := Scenario.env Scenario.service_controller_fails in
  let launch := startCloudControllerManager E "D" (KubeClient "D/external") (Cloud "D")
                  Scenario.w0 in
  let launch' := startCloudControllerManager S "D" (KubeClient "D/external") (Cloud "D")
                   Scenario.w0 in
  (exists new,
     trace (snd launch) = new ++ [] /\
     started new = [] /\
     forall id, id ∈ spawned new ->
                id = 0%nat /\ head new = Some (EvCancel id) /\ canceled new = [id]) /\
  (fst launch = Err (ErrExternal "node controller") /\
   head (trace (snd launch)) = Some (EvCancel 0) /\
   canceled (trace (snd launch)) = [0%nat] /\
   spawned (trace (snd launch)) = [0%nat]) /\
  (fst launch' = Err (ErrExternal "service controller") /\
   next_ctx (snd launch') = 0%nat /\
   canceled (trace (snd launch')) = []) /\
  spawned (trace (snd launch')) = [] /\
  fst (add_cluster E "D" New Scenario.w0) = New.
Proof.
  intros E S launch launch'. subst launch launch'.
  destruct (failed_launch_cancels_instance E "D" (KubeClient "D/external") (Cloud "D")
              Scenario.w0) as (Hcancel & _ & Hnode & Hretry).
  destruct (failed_launch_cancels_instance S "D" (KubeClient "D/external") (Cloud "D")
              Scenario.w0) as (_ & Hservice & _ & _).
  destruct (Hnode (ErrExternal "node controller")) as [_ Hnode']; [intros w0; reflexivity |].
  destruct (Hservice (ErrExternal "service controller"))
    as (_ & Hquiet & _ & Hservice'); [intros w0; reflexivity |].
  split; [apply Hcancel; vm_compute; reflexivity |].
  split; [apply Hnode'; vm_compute; reflexivity |].
  split; [apply Hservice'; vm_compute; reflexivity |].
  split; [exact Hquiet |].
  apply (Hretry New Scenario.w0 (KubeClient "D/external")).
  - reflexivity.
  - vm_compute. reflexivity.
  - vm_compute. reflexivity.
Defined.

(** * Further properties of the code *)

(** ** getKubeClient: failure modes and cost *)

Section BootstrapCost.

Variable E : Env.

Lemma backoff_total_bound (k : nat) :
  (k <= 5)%nat -> 0 <= total (backoff 0 k) <= 10 * Second.
Proof.
  intros Hk. do 6 (destruct k as [| k]; [vm_compute; split; discriminate |]). lia.
Qed.

(** One variant: what it costs and how it can end. *)
Lemma try_variant_cost cluster internal w :
  let a := fst (try_variant E cluster internal w) in
  let w' := snd (try_variant E cluster internal w) in
  clock w <= clock w' <= clock w + 10 * Second /\
  (exists n : nat, (n <= 5)%nat /\
                   length (probes (trace w')) = (n + length (probes (trace w)))%nat) /\
  match a with
  | NextVariant => True
  | Return (Ok _) => fired E (clock w') = false
  | Return (Err e) => e = ErrCanceled /\ fired E (clock w') = true
  end.
Proof.
  intros a w'. subst a w'.
  unfold try_variant. rewrite bind_eq. cbn [call fst snd].
  set (w1 := snd (emit (EvKubeConfig cluster internal) w)).
  assert (Hc1 : clock w1 = clock w) by done.
  assert (Hp1 : probes (trace w1) = probes (trace w)) by done.
  clearbody w1.
  assert (Hnone : forall s f,
             clock w <= clock (snd (klog s f w1)) <= clock w + 10 * Second /\
             (exists n : nat, (n <= 5)%nat /\
                length (probes (trace (snd (klog s f w1)))) =
                  (n + length (probes (trace w)))%nat)).
  { intros s f. simpl. rewrite Hc1, Hp1. split; [unfold Second; lia |].
    exists 0%nat. split; [lia | done]. }
  destruct (kind_KubeConfig E cluster internal w) as [kconfig | e].
  2:{ rewrite bind_eq. cbn [ret fst snd]. destruct (Hnone Error
        "Failed to get kubeconfig for cluster %s: %v") as [H1 H2]. split; [exact H1 | split; [exact H2 | done]]. }
  destruct (RESTConfigFromKubeConfig E kconfig) as [config | e].
  2:{ rewrite bind_eq. cbn [ret fst snd]. destruct (Hnone Error
        "Failed to convert kubeconfig for cluster %s: %v") as [H1 H2]. split; [exact H1 | split; [exact H2 | done]]. }
  rewrite bind_eq.
  destruct (probe_loop E 5 0 (Host config) w1) as [p w2] eqn:Hrun. cbn [fst snd].
  apply probe_loop_shape in Hrun as (k & Hk & _ & Hcl & _ & Hres); [| lia].
  pose proof (backoff_total_bound k Hk) as Hb.
  assert (Hck : clock w <= clock w2 <= clock w + 10 * Second) by lia.
  destruct p.
  - destruct Hres as (Hlt & Hpr & Hfi).
    assert (Hn : exists n : nat, (n <= 5)%nat /\
                   length (probes (trace w2)) = (n + length (probes (trace w)))%nat).
    { exists (S k). split; [lia |].
      rewrite Hpr, length_app, length_replicate. by rewrite Hp1. }
    destruct (NewForConfig E config); [split; [exact Hck | split; [exact Hn | done]] |].
    rewrite bind_eq. split; [exact Hck | split; [exact Hn | done]].
  - destruct Hres as (-> & Hpr & _). rewrite bind_eq.
    split; [exact Hck |]. split; [| done].
    exists 5%nat. split; [lia |].
    transitivity (length (probes (trace w2))); [done |].
    rewrite Hpr, length_app, length_replicate. by rewrite Hp1.
  - destruct Hres as (Hlt & Hpr & Hfi).
    split; [exact Hck |]. split; [| done].
    exists k. split; [lia |].
    transitivity (length (probes (trace w2))); [done |].
    rewrite Hpr, length_app, length_replicate. by rewrite Hp1.
Qed.

(** X1.  [getKubeClient] never hands back a collaborator's error: it ends
    with the cancellation error, and then the signal has fired, or with the
    no-working-clientset error, and then both variants were asked for; when
    it hands back a client the signal had not fired at the last check.  It
    derives no context, starts no task and invokes no cancellation
    control. *)
Theorem getKubeClient_failure_modes (cluster : string) (w : world) :
  let r := fst (getKubeClient E cluster w) in
  let w' := snd (getKubeClient E cluster w) in
  (next_ctx w' = next_ctx w /\
   spawned (trace w') = spawned (trace w) /\
   canceled (trace w') = canceled (trace w) /\
   started (trace w') = started (trace w)) /\
  match r with
  | Ok _ => fired E (clock w') = false
  | Err e =>
      (e = ErrNoClientset /\
       variants_tried (trace w') = true :: false :: variants_tried (trace w)) \/
      (e = ErrCanceled /\ fired E (clock w') = true)
  end.
Proof.
  intros r w'. subst r w'. split.
  - pose proof (getKubeClient_ext E cluster w) as Hx.
    split; [by destruct Hx as (_ & _ & ?) |].
    split; [| split]; (eapply ext_view; [| apply Hx]; by intros []).
  - unfold getKubeClient. cbn [getKubeClient_from]. rewrite bind_eq.
    pose proof (try_variant_cost cluster false w) as (_ & _ & H1).
    pose proof (try_variant_tried E cluster false w) as T1.
    destruct (try_variant E cluster false w) as [[| [c1 | e1]] w1]; cbn [fst snd] in *.
    + rewrite bind_eq.
      pose proof (try_variant_cost cluster true w1) as (_ & _ & H2).
      pose proof (try_variant_tried E cluster true w1) as T2.
      destruct (try_variant E cluster true w1) as [[| [c2 | e2]] w2]; cbn [fst snd] in *.
      * cbn [getKubeClient_from ret fst snd]. left. split; [done |]. by rewrite T2, T1.
      * done.
      * by right.
    + done.
    + by right.
Qed.

(** X2.  One bootstrap makes at most 10 probe attempts and spends at most
    20 seconds of the clock (twice the waits 0+1+2+3+4). *)
Theorem getKubeClient_bounded (cluster : string) (w : world) :
  let w' := snd (getKubeClient E cluster w) in
  clock w <= clock w' <= clock w + 20 * Second /\
  exists n : nat,
    (n <= 10)%nat /\ length (probes (trace w')) = (n + length (probes (trace w)))%nat.
Proof.
  intros w'. subst w'.
  unfold getKubeClient. cbn [getKubeClient_from]. rewrite bind_eq.
  pose proof (try_variant_cost cluster false w) as (C1 & (n1 & Hn1 & P1) & _).
  destruct (try_variant E cluster false w) as [[| r1] w1]; cbn [fst snd] in *.
  - rewrite bind_eq.
    pose proof (try_variant_cost cluster true w1) as (C2 & (n2 & Hn2 & P2) & _).
    assert (Hboth : clock w <= clock (snd (try_variant E cluster true w1)) <= clock w + 20 * Second /\
                    exists n : nat, (n <= 10)%nat /\
                      length (probes (trace (snd (try_variant E cluster true w1)))) =
                        (n + length (probes (trace w)))%nat).
    { generalize dependent (snd (try_variant E cluster true w1)). intros w2 C2 P2.
      split; [unfold Second in *; lia |]. exists (n2 + n1)%nat. split; lia. }
    by destruct (try_variant E cluster true w1) as [[| r2] w2].
  - cbn [ret fst snd]. split; [unfold Second in *; lia |]. exists n1. split; [lia | done].
Qed.

End BootstrapCost.

(** ** startCloudControllerManager: what a successful launch has done *)

Section LaunchSuccess.

Variable E : Env.

Lemma poll_ticks_ready n interval deadline client w w' :
  poll_ticks E n interval deadline (healthy E client) w = (None, w') ->
  exists w_r, healthz E client w_r = StatusOK /\
              w' = snd (emit (EvHealthz client (clock w_r)) w_r).
Proof.
  revert w. induction n as [| n IH]; intros w; [done |].
  cbn [poll_ticks].
  destruct (fired E _); [by rewrite bind_eq |].
  destruct (_ <=? _); [by rewrite bind_eq |].
  rewrite bind_eq, bind_eq, healthy_run. cbn [fst snd].
  destruct (bool_decide (healthz E client _ = StatusOK)) eqn:Hb.
  - intros [= <-]. apply bool_decide_eq_true_1 in Hb. by eexists.
  - apply IH.
Qed.

Lemma poll_ready client w w' :
  PollImmediateWithContext E (1 * Second) (30 * Second) (healthy E client) w = (None, w') ->
  exists w_r, healthz E client w_r = StatusOK /\
              w' = snd (emit (EvHealthz client (clock w_r)) w_r).
Proof.
  unfold PollImmediateWithContext. rewrite bind_eq, healthy_run. cbn [fst snd].
  destruct (bool_decide (healthz E client w = StatusOK)) eqn:Hb.
  - intros [= <-]. apply bool_decide_eq_true_1 in Hb. by eexists.
  - apply poll_ticks_ready.
Qed.

(** X3.  A launch that succeeds ended its poll on a health check answered
    with 200, and did nothing on the clock after it; it derived exactly one
    context, started the service controller and the node controller under
    it and the informers with it, put its cancellation control in the
    handle together with the informer factory of this client (60-second
    resync), and invoked no cancellation control. *)
Theorem launch_success (cluster : string) (client : kubeClient) (cloud : cloudProvider)
    (w : world) (h : ccm)
    (Hok : fst (startCloudControllerManager E cluster client cloud w) = Ok h) :
  let w' := snd (startCloudControllerManager E cluster client cloud w) in
  let id := next_ctx w in
  factory h = SharedInformerFactory client (60 * Second) /\
  cancelFn h = id /\
  next_ctx w' = S id /\
  canceled (trace w') = canceled (trace w) /\
  exists w_r,
    healthz E client w_r = StatusOK /\
    clock w' = clock w_r /\
    trace w' =
      [EvInformersStart cluster id; EvGoNodeRun cluster id; EvNewNodeController cluster;
       EvGoServiceRun cluster id; EvWithCancel id; EvNewServiceController cluster;
       EvHealthz client (clock w_r)] ++ trace w_r.
Proof.
  intros w' id. subst w' id.
  pose proof (startCloudControllerManager_shape E cluster client cloud w) as Hshape.
  revert Hok Hshape.
  unfold startCloudControllerManager. rewrite bind_eq.
  destruct (PollImmediateWithContext E _ _ _ w) as [err w1] eqn:Hpoll. cbn [fst snd].
  destruct err as [e |]; [by rewrite bind_eq |].
  apply poll_ready in Hpoll as (w_r & Hready & ->).
  rewrite bind_eq. cbn [call fst snd].
  destruct (servicecontroller_New E cloud client cluster _) as [sc | e]; [| by rewrite bind_eq].
  rewrite !bind_eq. cbn [call fst snd context_WithCancel].
  destruct (nodecontroller_New E client cloud _) as [nc | e]; [| by rewrite !bind_eq].
  rewrite !bind_eq. cbn [ret emit fst snd clock trace next_ctx].
  intros [= <-] Hshape.
  destruct (Hshape _ _ eq_refl) as (m & _ & _ & _ & Hres). cbn zeta in Hres.
  destruct Hres as (_ & Hnx & Htr). cbn [trace next_ctx] in Htr, Hnx.
  injection Hnx as Hnx. rewrite Hnx.
  split; [done |]. split; [done |]. split; [done |]. split.
  - rewrite Hnx in Htr. rewrite Htr. simpl. apply canceled_health.
  - exists w_r. split; [done |]. by split.
Qed.

End LaunchSuccess.

Lemma launch_success_witness :
  let E := Scenario.env (Scenario.fine None ["A"]) in
  let w' := snd (startCloudControllerManager E "A" (KubeClient "A/external") (Cloud "A")
                   Scenario.w0) in
  next_ctx w' = 1%nat /\ canceled (trace w') = [] /\
  exists w_r, healthz E (KubeClient "A/external") w_r = StatusOK /\ clock w' = clock w_r.
Proof.
  intros E w'. subst w'.
  destruct (launch_success E "A" (KubeClient "A/external") (Cloud "A") Scenario.w0
              (Scenario.handle "A" false 0) eq_refl)
    as (_ & _ & Hnext & Hcanceled & w_r & Hready & Hclock & _).
  split; [exact Hnext |]. split; [exact Hcanceled |].
  exists w_r. split; [exact Hready | exact Hclock].
Defined.

(** ** The removal loop and the fleet after a turn *)

Section Turn.

Variable E : Env.

Lemma remove_from_plain (clusterSet : gset string) (listed : list string) entries c w :
  (forall k, k ∈ clusterSet <-> k ∈ listed) ->
  let c' := fst (remove_from clusterSet entries c w) in
  let w' := snd (remove_from clusterSet entries c w) in
  (forall k, clusters c' !! k =
             if decide (k ∈ entries.*1 /\ k ∉ listed) then None else clusters c !! k) /\
  canceled (trace w') =
    rev (cancelFn <$> (filter (fun kh => kh.1 ∉ listed) entries).*2) ++ canceled (trace w) /\
  started (trace w') = started (trace w) /\
  spawned (trace w') = spawned (trace w).
Proof.
  intros Hset. revert c w. induction entries as [| [k h] rest IH]; intros c w.
  - cbn [remove_from ret fst snd]. split; [| done]. intros k.
    case_decide as Hd; [| done]. destruct Hd as [Hk _]. by apply elem_of_nil in Hk.
  - cbn [remove_from]. destruct (decide (k ∈ clusterSet)) as [Hin | Hout].
    + destruct (IH c w) as (Hlook & Hcan & Hst & Hsp).
      split; [| split; [| done]].
      * intros k'. rewrite Hlook. rewrite fmap_cons. simpl.
        destruct (decide (k' ∈ rest.*1 /\ k' ∉ listed)) as [[H1 H2] | Hn];
          destruct (decide (k' ∈ k :: rest.*1 /\ k' ∉ listed)) as [[H3 H4] | Hn'];
          try done.
        -- exfalso. apply Hn'. split; [by right | done].
        -- apply elem_of_cons in H3 as [-> | H3]; [by apply Hset in Hin |].
           exfalso. by apply Hn.
      * rewrite Hcan. rewrite filter_cons_False; [done |].
        simpl. intros Hnot. by apply Hnot, Hset.
    + rewrite !bind_eq. cbn [klog cancel emit fst snd].
      match goal with
      | |- context [remove_from _ _ ?c1 ?w1] =>
          destruct (IH c1 w1) as (Hlook & Hcan & Hst & Hsp)
      end.
      split; [| split; [| done]].
      * intros k'. rewrite Hlook. rewrite fmap_cons. simpl.
        destruct (decide (k' ∈ rest.*1 /\ k' ∉ listed)) as [[H1 H2] | Hn];
          destruct (decide (k' ∈ k :: rest.*1 /\ k' ∉ listed)) as [[H3 H4] | Hn'];
          try done.
        -- exfalso. apply Hn'. split; [by right | done].
        -- apply elem_of_cons in H3 as [-> | H3]; [apply lookup_delete_eq |].
           exfalso. by apply Hn.
        -- rewrite lookup_delete_ne; [done |]. intros <-. apply Hn'.
           split; [by left |]. intros Hl. by apply Hout, Hset.
      * rewrite Hcan. rewrite filter_cons_True.
        2:{ simpl. intros Hl. by apply Hout, Hset. }
        simpl. by rewrite <- app_assoc.
Qed.

(** X4.  The removal loop keeps exactly the keys that are listed, with
    their handles, and invokes exactly the cancellation controls of the
    handles it removes, each once; it starts nothing and takes no time. *)
Theorem remove_expired_exact (listed : list string) (c : Controller) (w : world) :
  let c' := fst (remove_expired listed c w) in
  let w' := snd (remove_expired listed c w) in
  clusters c' = filter (fun kh => kh.1 ∈ listed) (clusters c) /\
  canceled (trace w') =
    rev (cancelFn <$> (filter (fun kh => kh.1 ∉ listed) (map_to_list (clusters c))).*2)
    ++ canceled (trace w) /\
  started (trace w') = started (trace w) /\
  spawned (trace w') = spawned (trace w) /\
  clock w' = clock w /\
  next_ctx w' = next_ctx w.
Proof.
  intros c' w'. subst c' w'. unfold remove_expired.
  destruct (remove_from_plain (list_to_set listed) listed (map_to_list (clusters c)) c w)
    as (Hlook & Hcan & Hst & Hsp); [intros k; apply elem_of_list_to_set |].
  destruct (remove_from_ext (list_to_set listed) (map_to_list (clusters c)) c w)
    as [(_ & _ & Hnx) Hck].
  split; [| by repeat split].
  apply map_eq. intros k. rewrite Hlook.
  destruct (clusters c !! k) as [h |] eqn:Hk.
  - destruct (decide (k ∈ listed)) as [Hl | Hnl].
    + rewrite decide_False by (by intros [_ ?]).
      symmetry. by apply map_lookup_filter_Some.
    + rewrite decide_True.
      * symmetry. apply map_lookup_filter_None. right. intros h' Hh'. by simpl.
      * split; [| done]. apply list_elem_of_fmap. exists (k, h).
        split; [done |]. by apply elem_of_map_to_list.
  - assert (Hnone : filter (fun kh => kh.1 ∈ listed) (clusters c) !! k = None)
      by (apply map_lookup_filter_None; by left).
    rewrite Hnone. by case_decide.
Qed.

Lemma remove_expired_spec_trace listed c w :
  exists new, trace (snd (remove_expired listed c w)) = new ++ trace w /\ started new = [].
Proof.
  unfold remove_expired.
  destruct (remove_from_ext (list_to_set listed) (map_to_list (clusters c)) c w)
    as [[(new & Hnew & Fnew) _] _].
  exists new. split; [done |].
  apply (view_none _ removal_event); [by intros [] | done].
Qed.

(** What the additions loop launches, with no invariant assumed. *)
Lemma add_new_launches listed c w f c' w' :
  add_new E listed c w = ((f, c'), w') ->
  exists new,
    trace w' = new ++ trace w /\
    NoDup ((started new).*1) /\
    (forall k id, (k, id) ∈ started new ->
                  k ∈ listed /\ clusters c !! k = None /\
                  exists h, clusters c' !! k = Some h /\ cancelFn h = id) /\
    (forall k h, clusters c !! k = Some h -> clusters c' !! k = Some h) /\
    (forall k h, clusters c' !! k = Some h ->
                 clusters c !! k = Some h \/ (k, cancelFn h) ∈ started new).
Proof.
  revert c w. induction listed as [| cluster rest IH]; intros c w Hrun.
  - injection Hrun as <- <- <-. exists []. simpl.
    split; [done |]. split; [constructor |]. split; [| split; [done | by left]].
    intros k id Hin. by apply elem_of_nil in Hin.
  - cbn [add_new] in Hrun. rewrite bind_eq in Hrun. cbn [ctx_Done fst snd] in Hrun.
    destruct (fired E (clock w)).
    + injection Hrun as <- <- <-. exists []. simpl.
      split; [done |]. split; [constructor |]. split; [| split; [done | by left]].
      intros k id Hin. by apply elem_of_nil in Hin.
    + rewrite bind_eq in Hrun.
      destruct (add_cluster E cluster c w) as [c1 w1] eqn:Hadd. cbn [fst snd] in Hrun.
      apply add_cluster_spec in Hadd as (new1 & Htr1 & _ & _ & _ & Hcases).
      apply IH in Hrun as (new2 & Htr2 & Hnd & Hfrom & Hkeep & Horigin).
      exists (new2 ++ new1). rewrite started_app.
      split; [by rewrite Htr2, Htr1, app_assoc |].
      destruct Hcases as [(-> & Hs & _) | [(-> & Hs & _) | (Hnone & h & -> & Hid & Hs & _)]];
        rewrite Hs.
      * rewrite app_nil_r. split; [done |]. split; [| done].
        intros k id Hin. destruct (Hfrom k id Hin) as (Hl & Hn & Hh).
        split; [by right | done].
      * rewrite app_nil_r. split; [done |]. split; [| done].
        intros k id Hin. destruct (Hfrom k id Hin) as (Hl & Hn & Hh).
        split; [by right | done].
      * simpl in *. split; [| split; [| split]].
        -- rewrite fmap_app. simpl. apply NoDup_app. split; [done |]. split.
           ++ intros k Hk ->%list_elem_of_singleton.
              apply list_elem_of_fmap in Hk as ([k' id] & -> & Hin).
              destruct (Hfrom _ _ Hin) as (_ & Hn & _). simpl in Hn.
              by rewrite lookup_insert_eq in Hn.
           ++ apply NoDup_singleton.
        -- intros k id [Hin | Hin]%elem_of_app.
           ++ destruct (Hfrom k id Hin) as (Hl & Hn & Hh).
              split; [by right |]. split; [| done].
              destruct (decide (cluster = k)) as [<- | Hne];
                [by rewrite lookup_insert_eq in Hn | by rewrite lookup_insert_ne in Hn].
           ++ apply list_elem_of_singleton in Hin. injection Hin as -> ->.
              split; [by left |]. split; [done |].
              exists h. split; [| done]. apply Hkeep. apply lookup_insert_eq.
        -- intros k h0 Hk. apply Hkeep. rewrite lookup_insert_ne; [done |].
           intros <-. congruence.
        -- intros k h0 Hk. destruct (Horigin k h0 Hk) as [Hold | Hnew].
           ++ destruct (decide (cluster = k)) as [<- | Hne].
              ** rewrite lookup_insert_eq in Hold. injection Hold as <-.
                 right. apply elem_of_app. right. rewrite Hid. by left.
              ** rewrite lookup_insert_ne in Hold by done. by left.
           ++ right. apply elem_of_app. by left.
Qed.

Lemma cycle_launches c w :
  let f := fst (fst (cycle E c w)) in
  let c' := snd (fst (cycle E c w)) in
  let w' := snd (cycle E c w) in
  let listed := fst (kind_List E w) in
  exists new,
    trace w' = new ++ trace w /\
    NoDup ((started new).*1) /\
    (forall k id, (k, id) ∈ started new -> k ∈ listed /\ clusters c !! k = None) /\
    (f = Continue ->
     (forall k h, clusters c' !! k = Some h ->
                  k ∈ listed /\
                  (clusters c !! k = Some h \/
                   (clusters c !! k = None /\ (k, cancelFn h) ∈ started new))) /\
     (forall k h, k ∈ listed -> clusters c !! k = Some h -> clusters c' !! k = Some h) /\
     (forall k id, (k, id) ∈ started new ->
                   exists h, clusters c' !! k = Some h /\ cancelFn h = id)).
Proof.
  intros f c' w' listed. subst f c' w' listed.
  unfold cycle. rewrite bind_eq. cbn [ctx_Done fst snd].
  destruct (fired E (clock w)).
  - exists []. simpl. split; [done |]. split; [constructor |].
    split; [| done]. intros k id Hin. by apply elem_of_nil in Hin.
  - rewrite bind_eq. cbn [call fst snd].
    destruct (kind_List E w) as [listed err]. rewrite bind_eq. cbn [fst].
    set (w2 := snd ((match err with
                     | Some _ => klog Info "error listing clusters, retrying ...: %v"
                     | None => ret tt
                     end) (snd (emit EvList w)))).
    assert (H2 : exists n2, trace w2 = n2 ++ trace w /\ started n2 = []).
    { subst w2. destruct err; simpl.
      - by exists [EvLog Info "error listing clusters, retrying ...: %v"; EvList].
      - by exists [EvList]. }
    clearbody w2. destruct H2 as (n2 & Ht2 & Hs2).
    rewrite bind_eq.
    destruct (add_new E listed c w2) as [[f1 c1] w3] eqn:Hadd. cbn [fst snd].
    apply add_new_launches in Hadd as (n3 & Ht3 & Hnd & Hfrom & Hkeep & Horigin).
    destruct f1.
    + rewrite bind_eq.
      pose proof (remove_expired_exact listed c1 w3) as (Hmap & _ & Hst & _).
      destruct (remove_expired_spec_trace listed c1 w3) as (n4 & Ht4 & Hs4).
      destruct (remove_expired listed c1 w3) as [c2 w4]. cbn [fst snd] in *.
      rewrite bind_eq. cbn [time_Sleep ret fst snd trace].
      exists (EvSleep (30 * Second) :: n4 ++ n3 ++ n2).
      split; [rewrite Ht4, Ht3, Ht2; simpl; by rewrite <- !app_assoc |].
      assert (Hall : started (EvSleep (30 * Second) :: n4 ++ n3 ++ n2) = started n3).
      { simpl. rewrite !started_app, Hs4, Hs2. simpl. by rewrite app_nil_r. }
      rewrite Hall. split; [done |].
      split; [intros k id Hin; by destruct (Hfrom k id Hin) as (? & ? & _) |].
      intros _. split; [| split].
      * intros k h Hk. rewrite Hmap in Hk.
        apply map_lookup_filter_Some in Hk as [Hk Hl]. simpl in Hl.
        split; [done |].
        destruct (Horigin k h Hk) as [Hold | Hnew]; [by left |].
        right. split; [| done]. by destruct (Hfrom _ _ Hnew) as (_ & ? & _).
      * intros k h Hl Hk. rewrite Hmap. apply map_lookup_filter_Some.
        split; [by apply Hkeep | done].
      * intros k id Hin. destruct (Hfrom k id Hin) as (Hl & _ & h & Hh & Hid).
        exists h. split; [| done]. rewrite Hmap. by apply map_lookup_filter_Some.
    + cbn [ret fst snd]. exists (n3 ++ n2).
      split; [by rewrite Ht3, Ht2, app_assoc |].
      rewrite started_app, Hs2, app_nil_r. split; [done |].
      split; [| done]. intros k id Hin. by destruct (Hfrom k id Hin) as (? & ? & _).
Qed.

End Turn.

Section Fleet.

Variable E : Env.

(** X5.  After a turn that ran to its end, the fleet holds exactly this:
    every key is listed and is either a key from before with the same
    handle or an identifier launched in this turn; every listed key from
    before is still there with its handle; and every launch completed in
    this turn is in the fleet under its identifier. *)
Theorem fleet_after_turn (c : Controller) (w : world)
    (Hgo : fst (fst (cycle E c w)) = Continue) :
  let c' := snd (fst (cycle E c w)) in
  let w' := snd (cycle E c w) in
  let listed := fst (kind_List E w) in
  exists new,
    trace w' = new ++ trace w /\
    (forall k h, clusters c' !! k = Some h ->
                 k ∈ listed /\
                 (clusters c !! k = Some h \/
                  (clusters c !! k = None /\ (k, cancelFn h) ∈ started new))) /\
    (forall k h, k ∈ listed -> clusters c !! k = Some h -> clusters c' !! k = Some h) /\
    (forall k id, (k, id) ∈ started new ->
                  exists h, clusters c' !! k = Some h /\ cancelFn h = id).
Proof.
  intros c' w' listed. subst c' w' listed.
  destruct (cycle_launches E c w) as (new & Htr & _ & _ & Hfleet).
  exists new. split; [done |]. by apply Hfleet.
Qed.


End Fleet.

Lemma fleet_after_turn_witness :
  let E := Scenario.env Scenario.replacement in
  let '(c1, w1) := Scenario.after_first Scenario.replacement in
  exists new,
    trace (snd (cycle E c1 w1)) = new ++ trace w1 /\
    clusters (snd (fst (cycle E c1 w1))) !! "B" = Some (Scenario.handle "B" true 1) /\
    (forall k id, (k, id) ∈ started new ->
                  exists h, clusters (snd (fst (cycle E c1 w1))) !! k = Some h /\
                            cancelFn h = id).
Proof.
  cbv zeta. unfold Scenario.after_first.
  set (E := Scenario.env Scenario.replacement).
  destruct (fleet_after_turn E (snd (fst (cycle E New Scenario.w0)))
              (snd (cycle E New Scenario.w0)) ltac:(vm_compute; reflexivity))
    as (new & Hnew & _ & Hkept & Hlaunched).
  exists new. split; [exact Hnew |]. split; [| exact Hlaunched].
  apply Hkept.
  - apply list_elem_of_In. vm_compute. tauto.
  - vm_compute. reflexivity.
Defined.

(** A listing that names A twice launches A once. *)
Example repeated_listing_launches_once :
  started (trace (snd (cycle (Scenario.env (Scenario.fine None ["A"; "A"])) New Scenario.w0)))
    = [("A", 0%nat)].
Proof. by vm_compute. Qed.

(** ** The whole run: no task is left unaccounted for *)

Section Books.

Variable E : Env.

Lemma spawned_app l1 l2 : spawned (l1 ++ l2) = spawned l1 ++ spawned l2.
Proof. apply omap_app. Qed.

Lemma accounted_app new old : accounted new -> accounted old -> accounted (new ++ old).
Proof.
  intros Hn Ho id. rewrite spawned_app, canceled_app, started_app, fmap_app.
  intros [Hin | Hin]%elem_of_app.
  - destruct (Hn id Hin); [left | right]; apply elem_of_app; by left.
  - destruct (Ho id Hin); [left | right]; apply elem_of_app; by right.
Qed.

Lemma accounted_quiet (P : event -> Prop) new :
  (forall e, P e -> match e with EvGoServiceRun _ _ | EvGoNodeRun _ _ => False | _ => True end) ->
  Forall P new -> accounted new.
Proof.
  intros HP Hall id Hin. exfalso.
  unfold spawned in Hin. apply list_elem_of_omap in Hin as (e & He & Hid).
  eapply Forall_forall in Hall; [| apply He]. apply HP in Hall. by destruct e.
Qed.

Lemma startCloudControllerManager_accounted name client cloud w :
  exists new,
    trace (snd (startCloudControllerManager E name client cloud w)) = new ++ trace w /\
    accounted new.
Proof.
  destruct (startCloudControllerManager E name client cloud w) as [r w'] eqn:Hrun.
  apply startCloudControllerManager_shape in Hrun as (m & _ & _ & _ & Hres).
  cbn zeta in Hres. cbn [snd].
  set (hc := EvHealthz client <$> rev (instants (clock w) (1 * Second) m)) in *.
  assert (Hh : accounted hc).
  { apply (accounted_quiet (fun e => match e with EvHealthz _ _ => True | _ => False end)).
    - by intros [].
    - subst hc. by apply health_events. }
  clearbody hc.
  destruct r as [h | e].
  - destruct Hres as (_ & _ & Htr). eexists. split; [by rewrite Htr, app_assoc |].
    apply accounted_app; [| done].
    intros id Hin. right. simpl in *.
    apply elem_of_cons in Hin as [-> | Hin]; [by left |].
    apply list_elem_of_singleton in Hin as ->. by left.
  - destruct Hres as [(_ & _ & Htr) | [(_ & Htr) | (_ & Htr)]].
    + exists (EvLog Error "Failed waiting for apiserver to be ready: %v" :: hc).
      split; [done |].
      apply (accounted_app [EvLog Error "Failed waiting for apiserver to be ready: %v"]);
        [| done].
      intros id Hin. by apply elem_of_nil in Hin.
    + eexists. split; [by rewrite Htr, app_assoc |].
      apply accounted_app; [| done]. intros id Hin. by apply elem_of_nil in Hin.
    + eexists. split; [by rewrite Htr, app_assoc |].
      apply accounted_app; [| done]. intros id Hin. left. simpl in *.
      apply list_elem_of_singleton in Hin as ->. by left.
Qed.

Lemma add_cluster_accounted cluster c w :
  exists new, trace (snd (add_cluster E cluster c w)) = new ++ trace w /\ accounted new.
Proof.
  assert (Hlog : forall s f, accounted [EvLog s f]).
  { intros s f id Hin. by apply elem_of_nil in Hin. }
  unfold add_cluster. rewrite bind_eq. cbn [klog emit fst snd].
  set (w0 := {| clock := clock w |}).
  assert (H0 : trace w0 = [EvLog (V 3) "processing cluster %s"] ++ trace w) by done.
  clearbody w0.
  destruct (clusters c !! cluster).
  { rewrite bind_eq. cbn [klog emit ret fst snd trace]. rewrite H0.
    exists ([EvLog (V 3) "cluster %s already exist"] ++ [EvLog (V 3) "processing cluster %s"]).
    split; [done |]. by apply accounted_app. }
  rewrite bind_eq.
  pose proof (getKubeClient_ext E cluster w0) as [(n1 & Hn1 & Fn1) _].
  assert (A1 : accounted n1).
  { apply (accounted_quiet (bootstrap_event cluster)); [by intros [] | done]. }
  destruct (getKubeClient E cluster w0) as [[kubeClient | e] w1]; cbn [fst snd] in *.
  - rewrite bind_eq. cbn [klog emit fst snd]. rewrite bind_eq.
    set (w2 := {| clock := clock w1 |}).
    destruct (startCloudControllerManager_accounted cluster kubeClient (Cloud cluster) w2)
      as (nL & HnL & AL).
    change (trace w2) with ([EvLog (V 2) "Creating new cloud provider for cluster %s"]
                            ++ trace w1) in HnL.
    destruct (startCloudControllerManager E cluster kubeClient (Cloud cluster) w2)
      as [[h | e] w3]; cbn [fst snd] in *; rewrite bind_eq; cbn [klog emit ret fst snd trace].
    + exists ([EvLog Info "Starting cloud controller for cluster %s"] ++ nL
              ++ [EvLog (V 2) "Creating new cloud provider for cluster %s"] ++ n1
              ++ [EvLog (V 3) "processing cluster %s"]).
      split; [rewrite HnL, Hn1, H0; by rewrite <- !app_assoc |].
      repeat (apply accounted_app; [done |]). done.
    + exists ([EvLog Error "Failed to start cloud controller for cluster %s: %v"] ++ nL
              ++ [EvLog (V 2) "Creating new cloud provider for cluster %s"] ++ n1
              ++ [EvLog (V 3) "processing cluster %s"]).
      split; [rewrite HnL, Hn1, H0; by rewrite <- !app_assoc |].
      repeat (apply accounted_app; [done |]). done.
  - rewrite bind_eq. cbn [klog emit ret fst snd trace].
    exists ([EvLog Error "Failed to create kubeClient for cluster %s: %v"] ++ n1
            ++ [EvLog (V 3) "processing cluster %s"]).
    split; [rewrite Hn1, H0; by rewrite <- !app_assoc |].
    repeat (apply accounted_app; [done |]). done.
Qed.

Lemma add_new_accounted listed c w :
  exists new, trace (snd (add_new E listed c w)) = new ++ trace w /\ accounted new.
Proof.
  assert (Hnil : accounted []) by (intros id Hin; by apply elem_of_nil in Hin).
  revert c w. induction listed as [| cluster rest IH]; intros c w.
  - by exists [].
  - cbn [add_new]. rewrite bind_eq. cbn [ctx_Done fst snd].
    destruct (fired E (clock w)); [by exists [] |].
    rewrite bind_eq.
    destruct (add_cluster_accounted cluster c w) as (n1 & H1 & A1).
    destruct (IH (fst (add_cluster E cluster c w)) (snd (add_cluster E cluster c w)))
      as (n2 & H2 & A2).
    exists (n2 ++ n1). split; [by rewrite H2, H1, app_assoc | by apply accounted_app].
Qed.

Lemma cycle_accounted c w :
  exists new, trace (snd (cycle E c w)) = new ++ trace w /\ accounted new.
Proof.
  assert (Hnil : accounted []) by (intros id Hin; by apply elem_of_nil in Hin).
  unfold cycle. rewrite bind_eq. cbn [ctx_Done fst snd].
  destruct (fired E (clock w)); [by exists [] |].
  rewrite bind_eq. cbn [call fst snd].
  destruct (kind_List E w) as [listed err]. rewrite bind_eq.
  set (w2 := snd ((match err with
                   | Some _ => klog Info "error listing clusters, retrying ...: %v"
                   | None => ret tt
                   end) (snd (emit EvList w)))).
  assert (H2 : exists n2, trace w2 = n2 ++ trace w /\ accounted n2).
  { subst w2. destruct err; simpl.
    - exists [EvLog Info "error listing clusters, retrying ...: %v"; EvList].
      split; [done |]. intros id Hin. by apply elem_of_nil in Hin.
    - exists [EvList]. split; [done |]. intros id Hin. by apply elem_of_nil in Hin. }
  clearbody w2. destruct H2 as (n2 & Ht2 & A2).
  rewrite bind_eq.
  destruct (add_new_accounted listed c w2) as (n3 & Ht3 & A3).
  destruct (add_new E listed c w2) as [[f1 c1] w3]. cbn [fst snd] in *.
  destruct f1.
  - rewrite bind_eq.
    destruct (remove_from_ext (list_to_set listed) (map_to_list (clusters c1)) c1 w3)
      as [[(n4 & Ht4 & F4) _] _].
    unfold remove_expired.
    destruct (remove_from _ _ c1 w3) as [c2 w4]. cbn [fst snd] in *.
    rewrite bind_eq. cbn [time_Sleep ret fst snd trace].
    exists ([EvSleep (30 * Second)] ++ n4 ++ n3 ++ n2).
    split; [rewrite Ht4, Ht3, Ht2; by rewrite <- !app_assoc |].
    apply accounted_app; [intros id Hin; by apply elem_of_nil in Hin |].
    apply accounted_app; [| by apply accounted_app].
    apply (accounted_quiet removal_event); [by intros [] | done].
  - cbn [ret fst snd]. exists (n3 ++ n2).
    split; [by rewrite Ht3, Ht2, app_assoc | by apply accounted_app].
Qed.

Lemma loop_accounted fuel c w c' w' :
  loop E fuel c w = Some (c', w') ->
  exists new, trace w' = new ++ trace w /\ accounted new.
Proof.
  revert c w. induction fuel as [| fuel IH]; intros c w; [done |].
  cbn [loop].
  destruct (cycle_accounted c w) as (n1 & H1 & A1).
  destruct (cycle E c w) as [[f c1] w1]. cbn [fst snd] in *.
  destruct f.
  - intros Hrun. apply IH in Hrun as (n2 & H2 & A2).
    exists (n2 ++ n1). split; [by rewrite H2, H1, app_assoc | by apply accounted_app].
  - intros [= <- <-]. by exists n1.
Qed.

(** X7.  When [Run], started on a fresh controller, returns: the lifecycle
    invariant holds; no cancellation control was invoked twice during the
    whole run; no two keys share a context; and every background task the
    run ever started is under a context whose cancellation control has been
    invoked or that belongs to a handle still in the fleet. *)
Theorem run_keeps_books (fuel : nat) (t : Z) (c' : Controller) (w' : world)
    (Hrun : Run E fuel New {| clock := t; trace := []; next_ctx := 0 |} = Some (c', w')) :
  Inv c' w' /\
  NoDup (canceled (trace w')) /\
  (forall k1 k2 h1 h2,
     clusters c' !! k1 = Some h1 -> clusters c' !! k2 = Some h2 ->
     cancelFn h1 = cancelFn h2 -> k1 = k2) /\
  (forall id, id ∈ spawned (trace w') ->
              id ∈ canceled (trace w') \/
              exists k h, clusters c' !! k = Some h /\ cancelFn h = id).
Proof.
  unfold Run in Hrun.
  destruct (loop E fuel New _) as [[c1 w1] |] eqn:Hloop; [| done].
  injection Hrun as <- <-.
  pose proof (loop_Inv E fuel _ _ _ _ (Inv_initial t) Hloop) as HInv.
  apply loop_accounted in Hloop as (new & Hnew & Hacc).
  simpl in Hnew. rewrite app_nil_r in Hnew. subst new.
  pose proof (cleanup_ext E w1) as Hx.
  assert (Hst : started (trace (snd (cleanup E w1))) = started (trace w1))
    by (eapply ext_view; [| apply Hx]; by intros []).
  assert (Hcn : canceled (trace (snd (cleanup E w1))) = canceled (trace w1))
    by (eapply ext_view; [| apply Hx]; by intros []).
  assert (Hsp : spawned (trace (snd (cleanup E w1))) = spawned (trace w1))
    by (eapply ext_view; [| apply Hx]; by intros []).
  assert (Hnx : next_ctx (snd (cleanup E w1)) = next_ctx w1) by (by destruct Hx as (_ & _ & ?)).
  assert (HInv' : Inv c1 (snd (cleanup E w1)))
    by (unfold Inv in *; by rewrite Hst, Hcn, Hnx).
  split; [done |]. rewrite Hcn, Hsp.
  destruct HInv as [Hkeys _ _ Hsonce Hconce].
  split; [done |]. split.
  - intros k1 k2 h1 h2 H1 H2 Heq.
    destruct (proj1 (Hkeys k1 (cancelFn h1))) as [Hin1 _]; [by exists h1 |].
    destruct (proj1 (Hkeys k2 (cancelFn h2))) as [Hin2 _]; [by exists h2 |].
    rewrite <- Heq in Hin2.
    apply list_elem_of_lookup in Hin1 as [i Hi]. apply list_elem_of_lookup in Hin2 as [j Hj].
    assert (i = j).
    { eapply (NoDup_lookup _ i j (cancelFn h1) Hsonce); rewrite list_lookup_fmap.
      - by rewrite Hi.
      - by rewrite Hj. }
    subst j. congruence.
  - intros id Hin. destruct (Hacc id Hin) as [Hc | Hs]; [by left |].
    destruct (decide (id ∈ canceled (trace w1))) as [Hc | Hnc]; [by left |].
    right. apply list_elem_of_fmap in Hs as ([k id'] & -> & Hs).
    destruct (proj2 (Hkeys k id')) as (h & Hh & Hid); [done |]. by exists k, h.
Qed.

End Books.

Lemma run_keeps_books_witness :
  let E := Scenario.env Scenario.interrupted in
  exists c' w',
    Run E 2 New Scenario.w0 = Some (c', w') /\
    spawned (trace w') = [0%nat; 0%nat] /\
    forall id, id ∈ spawned (trace w') ->
               id ∈ canceled (trace w') \/
               exists k h, clusters c' !! k = Some h /\ cancelFn h = id.
Proof.
  intros E.
  destruct (Run E 2 New Scenario.w0) as [[c' w'] |] eqn:Hrun; [| by vm_compute in Hrun].
  exists c', w'. split; [reflexivity |]. split.
  - assert (Hs : option_map (fun r => spawned (trace (snd r))) (Run E 2 New Scenario.w0)
                 = Some [0%nat; 0%nat]) by (vm_compute; reflexivity).
    rewrite Hrun in Hs. simpl in Hs. congruence.
  - exact (proj2 (proj2 (proj2 (run_keeps_books E 2 0 c' w' Hrun)))).
Defined.

(** ** How long the loop outlives the signal *)

Section Latency.

Variable E : Env.
Variable t : Z.
Hypothesis Hsignal : cancel_at E = Some t.

Lemma not_fired_before w : fired E (clock w) = false -> clock w < t.
Proof. unfold fired. rewrite Hsignal. by intros ?%Z.leb_gt. Qed.

Lemma probe_loop_late n i host w :
  0 <= i -> i + Z.of_nat n <= 5 ->
  clock (snd (probe_loop E n i host w)) <= Z.max (clock w) (t + 4 * Second).
Proof.
  revert i w. induction n as [| n IH]; intros i w Hi Hn; [simpl; lia |].
  cbn [probe_loop]. rewrite bind_eq. cbn [ctx_Done fst snd].
  destruct (fired E (clock w)) eqn:Hf; [simpl; lia |].
  apply not_fired_before in Hf.
  rewrite bind_eq. pose proof (probeHTTP_clock E host w) as Hc.
  destruct (probeHTTP E host w) as [[|] w1]; cbn [fst snd] in *; [simpl; lia |].
  rewrite bind_eq. cbn [fst snd].
  etrans; [apply IH; lia |]. simpl. unfold Second. lia.
Qed.

Lemma try_variant_late cluster internal w :
  clock (snd (try_variant E cluster internal w)) <= Z.max (clock w) (t + 4 * Second).
Proof.
  unfold try_variant. rewrite bind_eq. cbn [call fst snd].
  set (w1 := snd (emit (EvKubeConfig cluster internal) w)).
  assert (Hc1 : clock w1 = clock w) by done. clearbody w1.
  destruct (kind_KubeConfig E cluster internal w) as [kconfig | e];
    [| rewrite bind_eq; simpl; lia].
  destruct (RESTConfigFromKubeConfig E kconfig) as [config | e];
    [| rewrite bind_eq; simpl; lia].
  rewrite bind_eq.
  pose proof (probe_loop_late 5 0 (Host config) w1 ltac:(lia) ltac:(lia)) as Hp.
  destruct (probe_loop E 5 0 (Host config) w1) as [p w2]. cbn [fst snd] in *.
  destruct p; [| rewrite bind_eq; simpl; lia | simpl; lia].
  destruct (NewForConfig E config); [simpl; lia | rewrite bind_eq; simpl; lia].
Qed.

Lemma getKubeClient_late cluster w :
  clock (snd (getKubeClient E cluster w)) <= Z.max (clock w) (t + 4 * Second).
Proof.
  unfold getKubeClient. cbn [getKubeClient_from]. rewrite bind_eq.
  pose proof (try_variant_late cluster false w) as H1.
  destruct (try_variant E cluster false w) as [[| r1] w1]; cbn [fst snd] in *; [| done].
  rewrite bind_eq.
  pose proof (try_variant_late cluster true w1) as H2.
  destruct (try_variant E cluster true w1) as [[| r2] w2]; cbn [fst snd] in *; simpl; lia.
Qed.

Lemma add_cluster_late cluster c w :
  clock (snd (add_cluster E cluster c w)) <= Z.max (clock w) (t + 4 * Second).
Proof.
  unfold add_cluster. rewrite bind_eq. cbn [klog emit fst snd].
  set (w0 := {| clock := clock w |}).
  assert (H0 : clock w0 = clock w) by done. clearbody w0.
  destruct (clusters c !! cluster); [rewrite bind_eq; simpl; lia |].
  rewrite bind_eq.
  pose proof (getKubeClient_late cluster w0) as H1.
  destruct (getKubeClient E cluster w0) as [[kubeClient | e] w1]; cbn [fst snd] in *;
    [| rewrite bind_eq; simpl; lia].
  rewrite bind_eq. cbn [klog emit fst snd]. rewrite bind_eq.
  set (w2 := {| clock := clock w1 |}).
  destruct (startCloudControllerManager E cluster kubeClient (Cloud cluster) w2)
    as [r w3] eqn:Hstart. cbn [fst snd].
  apply startCloudControllerManager_shape in Hstart as (_ & _ & _ & Hcb & _).
  specialize (Hcb t Hsignal). simpl in Hcb.
  assert (H3 : clock w3 <= Z.max (clock w) (t + 4 * Second)) by (unfold Second in *; lia).
  by destruct r; rewrite bind_eq.
Qed.

Lemma add_new_late listed c w :
  clock (snd (add_new E listed c w)) <= Z.max (clock w) (t + 4 * Second).
Proof.
  revert c w. induction listed as [| cluster rest IH]; intros c w; [simpl; lia |].
  cbn [add_new]. rewrite bind_eq. cbn [ctx_Done fst snd].
  destruct (fired E (clock w)); [simpl; lia |].
  rewrite bind_eq.
  pose proof (add_cluster_late cluster c w) as H1.
  etrans; [apply IH |]. lia.
Qed.

Lemma cycle_late c w :
  clock w < t ->
  clock (snd (cycle E c w)) <= t + 34 * Second.
Proof.
  intros Hw. unfold cycle. rewrite bind_eq. cbn [ctx_Done fst snd].
  destruct (fired E (clock w)); [simpl; unfold Second; lia |].
  rewrite bind_eq. cbn [call fst snd].
  destruct (kind_List E w) as [listed err]. rewrite bind_eq.
  set (w2 := snd ((match err with
                   | Some _ => klog Info "error listing clusters, retrying ...: %v"
                   | None => ret tt
                   end) (snd (emit EvList w)))).
  assert (H2 : clock w2 = clock w) by (subst w2; by destruct err).
  clearbody w2. rewrite bind_eq.
  pose proof (add_new_late listed c w2) as H3.
  destruct (add_new E listed c w2) as [[f1 c1] w3]. cbn [fst snd] in *.
  destruct f1; [| simpl; unfold Second in *; lia].
  rewrite bind_eq. unfold remove_expired.
  destruct (remove_from_ext (list_to_set listed) (map_to_list (clusters c1)) c1 w3)
    as [_ H4].
  destruct (remove_from _ _ c1 w3) as [c2 w4]. cbn [fst snd] in *.
  rewrite bind_eq. simpl. unfold Second in *. lia.
Qed.

Lemma loop_late fuel c w c' w' :
  loop E fuel c w = Some (c', w') ->
  clock w' <= Z.max (clock w) (t + 34 * Second).
Proof.
  revert c w. induction fuel as [| fuel IH]; intros c w; [done |].
  cbn [loop].
  destruct (fired E (clock w)) eqn:Hf.
  - unfold cycle. rewrite bind_eq. cbn [ctx_Done fst snd]. rewrite Hf.
    intros [= <- <-]. lia.
  - apply not_fired_before in Hf.
    pose proof (cycle_late c w Hf) as H1.
    destruct (cycle E c w) as [[f c1] w1]. cbn [fst snd] in *.
    destruct f.
    + intros Hrun. apply IH in Hrun. lia.
    + intros [= <- <-]. lia.
Qed.

End Latency.

Section Shutdown.

Variable E : Env.

Lemma delete_all_clock containers w : clock (snd (delete_all E containers w)) = clock w.
Proof.
  revert w. induction containers as [| id rest IH]; intros w; [done |].
  cbn [delete_all]. rewrite bind_eq. cbn [call fst snd].
  destruct (container_Delete E id w); [rewrite bind_eq |]; by rewrite IH.
Qed.

Lemma cleanup_clock w : clock (snd (cleanup E w)) = clock w.
Proof.
  unfold cleanup. rewrite bind_eq. cbn [call fst snd].
  destruct (container_ListByLabel E _ w) as [containers [e |]].
  - by rewrite bind_eq.
  - by rewrite delete_all_clock.
Qed.

(** X8.  On the logical clock, where only sleeps and the poll take time:
    once a signal is set to fire at [t], [Run] does return (for enough
    fuel), and whenever it returns it is no later than 34 seconds after [t]
    (at most 4 seconds of probe backoff, then at most one full 30-second
    sleep), or at once when it is entered after that. *)
Theorem Run_returns_soon_after_signal (t : Z) (c : Controller) (w : world)
    (Hsignal : cancel_at E = Some t) :
  (exists fuel c' w',
     Run E fuel c w = Some (c', w') /\
     clock w' <= Z.max (clock w) (t + 34 * Second)) /\
  (forall fuel c' w',
     Run E fuel c w = Some (c', w') ->
     clock w' <= Z.max (clock w) (t + 34 * Second)).
Proof.
  assert (Hbound : forall fuel c' w',
             Run E fuel c w = Some (c', w') ->
             clock w' <= Z.max (clock w) (t + 34 * Second)).
  { intros fuel c' w' Hrun. unfold Run in Hrun.
    destruct (loop E fuel c w) as [[c1 w1] |] eqn:Hloop; [| done].
    injection Hrun as <- <-.
    apply (loop_late E t Hsignal) in Hloop.
    rewrite cleanup_clock. lia. }
  split; [| exact Hbound].
  destruct (loop_returns E t (Z.to_nat (Z.max 0 (t - clock w))) c w Hsignal)
    as [[c1 w1] Hloop]; [unfold Second; lia |].
  exists (S (Z.to_nat (Z.max 0 (t - clock w)))), c1, (snd (cleanup E w1)).
  assert (Hrun : Run E (S (Z.to_nat (Z.max 0 (t - clock w)))) c w
                 = Some (c1, snd (cleanup E w1))) by (unfold Run; by rewrite Hloop).
  split; [exact Hrun | by eapply Hbound].
Qed.

End Shutdown.

(** The bound is nearly reached: signal at 16.5 s, return at 50 s. *)
Lemma Run_returns_soon_after_signal_witness :
  let E := Scenario.env Scenario.late_signal in
  (exists fuel c' w',
     Run E fuel New Scenario.w0 = Some (c', w') /\
     clock w' <= Z.max 0 (16 * Second + 500000000 + 34 * Second)) /\
  exists c' w',
    Run E 2 New Scenario.w0 = Some (c', w') /\
    clock w' = 50 * Second /\
    clock w' <= Z.max 0 (16 * Second + 500000000 + 34 * Second).
Proof.
  intros E.
  destruct (Run_returns_soon_after_signal E (16 * Second + 500000000) New Scenario.w0
              eq_refl) as [Hreturns Hbound].
  split; [exact Hreturns |].
  destruct (Run E 2 New Scenario.w0) as [[c' w'] |] eqn:Hrun; [| by vm_compute in Hrun].
  exists c', w'. split; [reflexivity |]. split.
  - assert (Hc : option_map (fun r => clock (snd r)) (Run E 2 New Scenario.w0)
                 = Some (50 * Second)) by (vm_compute; reflexivity).
    rewrite Hrun in Hc. simpl in Hc. congruence.
  - exact (Hbound 2%nat c' w' Hrun).
Defined.

(** ** Where a launch error comes from, and how long a turn can take *)

Section Budget.

Variable E : Env.

(** X9.  A launch error is the poll's timeout error or the very error a
    controller constructor handed back; the health condition itself never
    produces one. *)
Theorem launch_errors (cluster : string) (client : kubeClient) (cloud : cloudProvider)
    (w : world) :
  match fst (startCloudControllerManager E cluster client cloud w) with
  | Ok _ => True
  | Err e =>
      e = ErrWaitTimeout \/
      (exists w0, servicecontroller_New E cloud client cluster w0 = Err e) \/
      (exists w0, nodecontroller_New E client cloud w0 = Err e)
  end.
Proof.
  unfold startCloudControllerManager. rewrite bind_eq.
  destruct (PollImmediateWithContext E _ _ _ w) as [err w1] eqn:Hpoll. cbn [fst snd].
  apply poll_shape in Hpoll as (m & _ & _ & _ & _ & _ & Hres).
  destruct err as [e0 |].
  { rewrite bind_eq. cbn [ret fst]. by left. }
  clear Hres. rewrite bind_eq. cbn [call fst snd].
  destruct (servicecontroller_New E cloud client cluster w1) as [sc | e] eqn:Hsc.
  - rewrite !bind_eq. cbn [call fst snd context_WithCancel].
    match goal with
    | |- context [nodecontroller_New E client cloud ?w2] =>
        destruct (nodecontroller_New E client cloud w2) as [nc | e] eqn:Hnc
    end.
    + by rewrite !bind_eq.
    + rewrite !bind_eq. right. right. by eexists.
  - rewrite bind_eq. right. left. by eexists.
Qed.

Lemma getKubeClient_clock cluster w :
  clock (snd (getKubeClient E cluster w)) <= clock w + 20 * Second.
Proof.
  unfold getKubeClient. cbn [getKubeClient_from]. rewrite bind_eq.
  pose proof (try_variant_cost E cluster false w) as (C1 & _).
  destruct (try_variant E cluster false w) as [[| r1] w1]; cbn [fst snd] in *.
  - rewrite bind_eq.
    pose proof (try_variant_cost E cluster true w1) as (C2 & _).
    destruct (try_variant E cluster true w1) as [[| r2] w2]; cbn [fst snd] in *;
      simpl; unfold Second in *; lia.
  - simpl. unfold Second in *. lia.
Qed.

Lemma add_cluster_duration cluster c w :
  clock (snd (add_cluster E cluster c w)) <= clock w + 50 * Second.
Proof.
  unfold add_cluster. rewrite bind_eq. cbn [klog emit fst snd].
  set (w0 := {| clock := clock w |}).
  assert (H0 : clock w0 = clock w) by done. clearbody w0.
  destruct (clusters c !! cluster); [rewrite bind_eq; simpl; unfold Second; lia |].
  rewrite bind_eq.
  pose proof (getKubeClient_clock cluster w0) as H1.
  destruct (getKubeClient E cluster w0) as [[kubeClient | e] w1]; cbn [fst snd] in *;
    [| rewrite bind_eq; simpl; unfold Second in *; lia].
  rewrite bind_eq. cbn [klog emit fst snd]. rewrite bind_eq.
  set (w2 := {| clock := clock w1 |}).
  destruct (startCloudControllerManager E cluster kubeClient (Cloud cluster) w2)
    as [r w3] eqn:Hstart. cbn [fst snd].
  apply startCloudControllerManager_shape in Hstart as (_ & _ & Hck & _).
  simpl in Hck.
  assert (H3 : clock w3 <= clock w + 50 * Second) by (unfold Second in *; lia).
  by destruct r; rewrite bind_eq.
Qed.

Lemma add_new_duration listed c w :
  clock (snd (add_new E listed c w)) <= clock w + 50 * Second * Z.of_nat (length listed).
Proof.
  revert c w. induction listed as [| cluster rest IH]; intros c w; [simpl; lia |].
  cbn [add_new]. rewrite bind_eq. cbn [ctx_Done fst snd].
  destruct (fired E (clock w)); [simpl; unfold Second; lia |].
  rewrite bind_eq.
  pose proof (add_cluster_duration cluster c w) as H1.
  etrans; [apply IH |]. simpl length. unfold Second in *. lia.
Qed.

(** X10.  On the logical clock, a turn over [n] listed identifiers takes at
    most 50 seconds for each of them (20 of probe backoff, 30 of readiness
    poll) and 30 seconds of sleep; a turn that goes on takes at least the
    30 seconds of sleep. *)
Theorem turn_duration (c : Controller) (w : world) :
  let listed := fst (kind_List E w) in
  let w' := snd (cycle E c w) in
  clock w' <= clock w + 50 * Second * Z.of_nat (length listed) + 30 * Second /\
  match fst (fst (cycle E c w)) with
  | Continue => clock w + 30 * Second <= clock w'
  | Exit => clock w <= clock w'
  end.
Proof.
  intros listed w'. subst listed w'. split.
  - unfold cycle. rewrite bind_eq. cbn [ctx_Done fst snd].
    destruct (fired E (clock w)); [simpl; unfold Second; lia |].
    rewrite bind_eq. cbn [call fst snd].
    destruct (kind_List E w) as [listed err]. rewrite bind_eq. cbn [fst].
    set (w2 := snd ((match err with
                     | Some _ => klog Info "error listing clusters, retrying ...: %v"
                     | None => ret tt
                     end) (snd (emit EvList w)))).
    assert (H2 : clock w2 = clock w) by (subst w2; by destruct err).
    clearbody w2. rewrite bind_eq.
    pose proof (add_new_duration listed c w2) as H3.
    destruct (add_new E listed c w2) as [[f1 c1] w3]. cbn [fst snd] in *.
    destruct f1; [| simpl; unfold Second in *; lia].
    rewrite bind_eq. unfold remove_expired.
    destruct (remove_from_ext (list_to_set listed) (map_to_list (clusters c1)) c1 w3)
      as [_ H4].
    destruct (remove_from _ _ c1 w3) as [c2 w4]. cbn [fst snd] in *.
    rewrite bind_eq. simpl. unfold Second in *. lia.
  - destruct (cycle_progress E c w) as (_ & Hck & Hf).
    destruct (fst (fst (cycle E c w))); [| done].
    destruct Hf as (_ & before & Hb & ->). simpl. unfold Second. lia.
Qed.

End Budget.
